(** * hvac.py: thermostat, actuators and schedule evaluation

    A shallow embedding of [src/unstable/hvac.py] and the properties of
    its scheduling and control logic.

    Reading conventions.  The file is Python; three places do not parse as
    written and are read as their nearest well-formed form:
    - [for pin is self.controlPins] is read as [for pin in ...];
    - [if area.upper() = sensor.name] is read as [==];
    - the second [if] of the [state] setters carries one stray blank after
      its tabs and is read as a sibling of the first [if].
    Everything else, names included, is taken as written.

    Python values that the code handles dynamically (the schedule table,
    the MQTT settings, the arguments of the setters) are embedded as
    [pyval]; exceptions are explicit results, and a raised exception keeps
    the mutations made before it.  Temperatures read from sensors are
    Python floats, embedded as binary64 floats with their rounding.
    Strings are ASCII text: [upper], [lower] and [int] agree with
    Python's on strings of ASCII characters ([is_ascii]). *)

From Stdlib Require Import ZArith List String Ascii Bool Lia.
From Stdlib Require PrimFloat Uint63.
Import ListNotations.

Open Scope string_scope.
Open Scope list_scope.
Open Scope Z_scope.

(* ================================================================= *)
(** ** Python: values, exceptions, a state-and-exception monad *)

Module Py.

Inductive exn : Type :=
| KeyError | TypeError | AttributeError | ValueError | IndexError
| ZeroDivisionError.

Definition exn_eqb (a b : exn) : bool :=
  match a, b with
  | KeyError, KeyError | TypeError, TypeError
  | AttributeError, AttributeError | ValueError, ValueError
  | IndexError, IndexError | ZeroDivisionError, ZeroDivisionError => true
  | _, _ => false
  end.

Inductive result (A : Type) : Type :=
| Ok (a : A)
| Raise (e : exn).
Arguments Ok {A} a.
Arguments Raise {A} e.

Definition is_ok {A} (r : result A) : bool :=
  match r with Ok _ => true | Raise _ => false end.

(** A computation over a mutable object of type [S]: the state after the
    call is returned also when the call raises. *)
Definition M (S A : Type) : Type := S -> result A * S.

Definition ret {S A} (a : A) : M S A := fun s => (Ok a, s).

Definition bind {S A B} (c : M S A) (k : A -> M S B) : M S B :=
  fun s => match c s with
           | (Ok a, s') => k a s'
           | (Raise e, s') => (Raise e, s')
           end.

Definition raise {S A} (e : exn) : M S A := fun s => (Raise e, s).
Definition gets {S A} (f : S -> A) : M S A := fun s => (Ok (f s), s).
Definition modify {S} (f : S -> S) : M S unit := fun s => (Ok tt, f s).

(** A pure computation that may raise, used inside a stateful one. *)
Definition lift {S A} (r : result A) : M S A := fun s => (r, s).

(** [try: body  except E: handler], where [catches] says which
    exceptions the clause names. *)
Definition try_except {S A} (body : M S A) (catches : exn -> bool)
           (handler : M S A) : M S A :=
  fun s => match body s with
           | (Ok a, s') => (Ok a, s')
           | (Raise e, s') => if catches e then handler s' else (Raise e, s')
           end.

Definition rbind {A B} (r : result A) (k : A -> result B) : result B :=
  match r with Ok a => k a | Raise e => Raise e end.

Declare Scope py_scope.
Delimit Scope py_scope with py.
Notation "x <- c ;; k" := (bind c (fun x => k))
  (at level 61, c at next level, right associativity) : py_scope.
Notation "c ;; k" := (bind c (fun _ => k))
  (at level 61, right associativity) : py_scope.
Notation "x <~ r ;; k" := (rbind r (fun x => k))
  (at level 61, r at next level, right associativity) : py_scope.

(** [for x in l: body] *)
Fixpoint for_each {S A} (l : list A) (body : A -> M S unit) : M S unit :=
  match l with
  | [] => ret tt
  | x :: r => bind (body x) (fun _ => for_each r body)
  end.

(** [for x in l: body], where the body may [return v] from the enclosing
    function: [Some v] stops the loop. *)
Fixpoint for_each_return {S A R} (l : list A) (body : A -> M S (option R))
  : M S (option R) :=
  match l with
  | [] => ret None
  | x :: r => bind (body x) (fun o =>
                match o with
                | Some v => ret (Some v)
                | None => for_each_return r body
                end)
  end.

(** [for x in l: acc = body(acc, x)], for a loop that updates a local. *)
Fixpoint fold_each {S A B} (l : list A) (acc : B) (body : B -> A -> M S B)
  : M S B :=
  match l with
  | [] => ret acc
  | x :: r => bind (body acc x) (fun acc' => fold_each r acc' body)
  end.

(** What a computation leaves alone: the projection [f] of the state is
    the same after the call, returned or raised. *)
Definition keeps {S A X} (f : S -> X) (c : M S A) : Prop :=
  forall s, f (snd (c s)) = f s.

(** Values.  A dict keeps its insertion order and has string keys (the
    schedule table and the MQTT settings are keyed by strings); numbers
    are integers. *)
#[local] Unset Elimination Schemes.
Inductive pyval : Type :=
| VNone
| VInt (z : Z)
| VStr (s : string)
| VList (l : list pyval)
| VDict (d : list (string * pyval)).
#[local] Set Elimination Schemes.

Definition truthy (v : pyval) : bool :=
  match v with
  | VNone => false
  | VInt z => negb (z =? 0)
  | VStr s => negb (String.eqb s "")
  | VList l => match l with [] => false | _ => true end
  | VDict d => match d with [] => false | _ => true end
  end.

(** *** Strings *)

Definition upper_ascii (c : ascii) : ascii :=
  let n := nat_of_ascii c in
  if (Nat.leb 97 n && Nat.leb n 122)%bool then ascii_of_nat (n - 32) else c.

Definition lower_ascii (c : ascii) : ascii :=
  let n := nat_of_ascii c in
  if (Nat.leb 65 n && Nat.leb n 90)%bool then ascii_of_nat (n + 32) else c.

Fixpoint str_map (f : ascii -> ascii) (s : string) : string :=
  match s with
  | EmptyString => EmptyString
  | String c r => String (f c) (str_map f r)
  end.

(** [s.upper()] and [s.lower()] on ASCII text. *)
Definition upper (s : string) : string := str_map upper_ascii s.
Definition lower (s : string) : string := str_map lower_ascii s.

(** The strings on which [upper] and [lower] are Python's [str.upper]
    and [str.lower]: every character is an ASCII character.  Outside
    them Python maps letters that the functions above leave alone. *)
Fixpoint is_ascii (s : string) : bool :=
  match s with
  | EmptyString => true
  | String c r => Nat.ltb (nat_of_ascii c) 128 && is_ascii r
  end.

Fixpoint str_take (n : nat) (s : string) : string :=
  match n, s with
  | S n', String c r => String c (str_take n' r)
  | _, _ => EmptyString
  end.

Fixpoint str_drop (n : nat) (s : string) : string :=
  match n, s with
  | S n', String _ r => str_drop n' r
  | _, _ => s
  end.

Fixpoint str_rev_onto (s acc : string) : string :=
  match s with
  | EmptyString => acc
  | String c r => str_rev_onto r (String c acc)
  end.
Definition str_rev (s : string) : string := str_rev_onto s EmptyString.

Definition is_space (c : ascii) : bool :=
  let n := nat_of_ascii c in
  ((Nat.leb 9 n && Nat.leb n 13) || (Nat.leb 28 n && Nat.leb n 32))%bool.

Definition is_digit (c : ascii) : bool :=
  let n := nat_of_ascii c in (Nat.leb 48 n && Nat.leb n 57)%bool.

Definition digit_val (c : ascii) : Z := Z.of_nat (nat_of_ascii c) - 48.

Fixpoint lstrip (s : string) : string :=
  match s with
  | String c r => if is_space c then lstrip r else s
  | EmptyString => EmptyString
  end.
Definition strip (s : string) : string :=
  str_rev (lstrip (str_rev (lstrip s))).

(** Decimal digits with single underscores between them, as [int]
    accepts; [after_digit] says whether the previous character was a
    digit. *)
Fixpoint parse_digits (s : string) (acc : Z) (after_digit : bool)
  : option Z :=
  match s with
  | EmptyString => if after_digit then Some acc else None
  | String c r =>
      if is_digit c then parse_digits r (10 * acc + digit_val c) true
      else if (Ascii.eqb c "_" && after_digit)%bool
           then parse_digits r acc false
           else None
  end.

(** [int(s)] for a string [s] of ASCII characters: surrounding blanks,
    an optional sign, decimal digits. *)
Definition int_of_str (s : string) : result Z :=
  let body := strip s in
  let '(neg, digits) :=
    match body with
    | String c r =>
        if Ascii.eqb c "-" then (true, r)
        else if Ascii.eqb c "+" then (false, r)
        else (false, body)
    | EmptyString => (false, body)
    end in
  match parse_digits digits 0 false with
  | Some z => Ok (if neg then - z else z)
  | None => Raise ValueError
  end.

(** Digit strings and their decimal value, to state what [int] returns
    on them. *)
Fixpoint all_digits (s : string) : bool :=
  match s with
  | EmptyString => true
  | String c r => is_digit c && all_digits r
  end.

Fixpoint decimal_from (acc : Z) (s : string) : Z :=
  match s with
  | EmptyString => acc
  | String c r => decimal_from (10 * acc + digit_val c) r
  end.
Definition decimal (s : string) : Z := decimal_from 0 s.

(** A non-empty string of decimal digits. *)
Definition is_number (s : string) : bool :=
  all_digits s && negb (String.eqb s "").

(** [int(v)] *)
Definition py_int (v : pyval) : result Z :=
  match v with
  | VInt z => Ok z
  | VStr s => int_of_str s
  | VNone | VList _ | VDict _ => Raise TypeError
  end.

(** [v[:n]] and [v[n:]] for a non-negative literal [n]. *)
Definition slice_to (n : nat) (v : pyval) : result pyval :=
  match v with
  | VStr s => Ok (VStr (str_take n s))
  | VList l => Ok (VList (firstn n l))
  | VNone | VInt _ | VDict _ => Raise TypeError
  end.

Definition slice_from (n : nat) (v : pyval) : result pyval :=
  match v with
  | VStr s => Ok (VStr (str_drop n s))
  | VList l => Ok (VList (skipn n l))
  | VNone | VInt _ | VDict _ => Raise TypeError
  end.

(** *** Floats

    A Python float is an IEEE 754 binary64 number and its arithmetic
    rounds to nearest, ties to even: the primitive floats. *)

Definition float : Type := PrimFloat.float.

(** [float(len(l))]: a length fits a machine word. *)
Definition float_of_len (n : nat) : float :=
  PrimFloat.of_uint63 (Uint63.of_Z (Z.of_nat n)).

(** [float(z)] for an integer below 2^63 in absolute value. *)
Definition float_of_Z (z : Z) : float :=
  if z <? 0 then PrimFloat.opp (PrimFloat.of_uint63 (Uint63.of_Z (- z)))
  else PrimFloat.of_uint63 (Uint63.of_Z z).

(** *** Dicts and subscripts *)

Fixpoint dict_get {V} (k : string) (d : list (string * V)) : option V :=
  match d with
  | [] => None
  | (k', v) :: r => if String.eqb k k' then Some v else dict_get k r
  end.

(** Removing a key: the keys of a dict are distinct, so this drops its
    one binding. *)
Definition dict_del {V} (k : string) (d : list (string * V))
  : list (string * V) :=
  filter (fun kv => negb (String.eqb k (fst kv))) d.

(** [d[k] = v]: replaces in place, or appends a new key. *)
Fixpoint dict_set {V} (k : string) (v : V) (d : list (string * V))
  : list (string * V) :=
  match d with
  | [] => [(k, v)]
  | (k', v') :: r =>
      if String.eqb k k' then (k', v) :: r else (k', v') :: dict_set k v r
  end.

Definition dict_has {V} (k : string) (d : list (string * V)) : bool :=
  match dict_get k d with Some _ => true | None => false end.

Definition seq_index {A} (l : list A) (i : Z) : result A :=
  let n := Z.of_nat (List.length l) in
  let j := if i <? 0 then i + n else i in
  if (j <? 0) || (n <=? j) then Raise IndexError
  else match nth_error l (Z.to_nat j) with
       | Some x => Ok x
       | None => Raise IndexError
       end.

Fixpoint str_chars (s : string) : list string :=
  match s with
  | EmptyString => []
  | String c r => String c EmptyString :: str_chars r
  end.

(** [v[k]] *)
Definition subscript (v k : pyval) : result pyval :=
  match v with
  | VDict d =>
      match k with
      | VStr key => match dict_get key d with
                    | Some x => Ok x
                    | None => Raise KeyError
                    end
      | VNone | VInt _ => Raise KeyError
      | VList _ | VDict _ => Raise TypeError
      end
  | VList l =>
      match k with
      | VInt i => seq_index l i
      | _ => Raise TypeError
      end
  | VStr s =>
      match k with
      | VInt i => x <~ seq_index (str_chars s) i ;; Ok (VStr x)
      | _ => Raise TypeError
      end
  | VNone | VInt _ => Raise TypeError
  end%py.

(** [v.pop(key)] with a string [key]: the popped value and the object as
    it is afterwards. *)
Definition py_pop (v : pyval) (key : string) : result (pyval * pyval) :=
  match v with
  | VDict d => match dict_get key d with
               | Some x => Ok (x, VDict (dict_del key d))
               | None => Raise KeyError
               end
  | VList _ => Raise TypeError
  | VNone | VInt _ | VStr _ => Raise AttributeError
  end.

(** [v.values()] *)
Definition py_values (v : pyval) : result (list pyval) :=
  match v with
  | VDict d => Ok (map snd d)
  | _ => Raise AttributeError
  end.

(** The items an iteration over [v] yields ([for x in v], [l.extend(v)]). *)
Definition py_iter (v : pyval) : result (list pyval) :=
  match v with
  | VList l => Ok l
  | VDict d => Ok (map (fun kv => VStr (fst kv)) d)
  | VStr s => Ok (map VStr (str_chars s))
  | VNone | VInt _ => Raise TypeError
  end.

(** [a + b] *)
Definition py_add (a b : pyval) : result pyval :=
  match a, b with
  | VInt x, VInt y => Ok (VInt (x + y))
  | VStr x, VStr y => Ok (VStr (x ++ y)%string)
  | VList x, VList y => Ok (VList (x ++ y))
  | _, _ => Raise TypeError
  end.

Fixpoint concat_with (sep : string) (l : list string) : string :=
  match l with
  | [] => ""
  | [x] => x
  | x :: r => (x ++ sep ++ concat_with sep r)%string
  end.

Fixpoint all_strs (l : list pyval) : result (list string) :=
  match l with
  | [] => Ok []
  | VStr s :: r => rest <~ all_strs r ;; Ok (s :: rest)
  | _ :: _ => Raise TypeError
  end%py.

(** [sep.join] applied to the argument list [args]: [str.join] takes exactly one argument, an iterable
    of strings. *)
Definition str_join (sep : string) (args : list pyval) : result string :=
  match args with
  | [it] => items <~ py_iter it ;; strs <~ all_strs items ;;
            Ok (concat_with sep strs)
  | _ => Raise TypeError
  end%py.

End Py.

(* ================================================================= *)
(** ** The board (PyMata) and the logger, as the code drives them *)

Module Pymata.

(** [Constants.ANALOG], [Constants.OUTPUT] *)
Inductive PinMode : Type := ANALOG | OUTPUT.

(** The calls made on the board, oldest first; [Sleep] is in
    milliseconds ([sleep(0.1)] is [Sleep 100]). *)
Inductive BoardEvent : Type :=
| SetPinMode (pin : Z) (mode : PinMode)
| DigitalWrite (pin : Z) (level : Z)
| Sleep (ms : Z)
| AnalogRead (pin : Z).

Record Board : Type := {
  trace : list BoardEvent;
  analog_in : Z -> Z          (* what [analog_read] finds on each pin *)
}.

Definition emit (e : BoardEvent) (b : Board) : Board :=
  {| trace := trace b ++ [e]; analog_in := analog_in b |}.

Definition set_pin_mode (pin : Z) (m : PinMode) : Board -> Board :=
  emit (SetPinMode pin m).
Definition digital_write (pin level : Z) : Board -> Board :=
  emit (DigitalWrite pin level).
Definition sleep (ms : Z) : Board -> Board := emit (Sleep ms).
Definition analog_read (pin : Z) (b : Board) : Z * Board :=
  (analog_in b pin, emit (AnalogRead pin) b).

End Pymata.

Module Logging.

Inductive Level : Type := DEBUG | INFO | WARNING | ERROR.

(** The arguments of [msg.format(...)]. *)
Inductive fmtarg : Type :=
| AStr (s : string)
| AInt (z : Z)
| AFloat (x : Py.float)
| AVal (v : Py.pyval).

Record LogRecord : Type := {
  level : Level;
  msg : string;
  args : list fmtarg
}.

Definition is_warning (r : LogRecord) : bool :=
  match level r with WARNING => true | _ => false end.

End Logging.

(* ================================================================= *)
(** ** class Thermostat *)

Module Thermostat.
Import Py Pymata Logging.
#[local] Open Scope py_scope.

(** Modelled from the spec: the Sensor class is used by hvac.py but is
    not defined in it.  The spec gives a sensor a unique name, a
    control-channel identifier and a last-read raw value, from which its
    Celsius and Fahrenheit values are derived; assigning [sensor.tempC]
    stores the raw value read from the board. *)
Record Sensor : Type := {
  name : string;
  controlPin : Z;
  raw : Z
}.

(** Modelled from the spec: the two derived readings of a sensor, whose
    conversion formulas the spec leaves to the Sensor class; they are
    Python floats. *)
Class SensorClass : Type := {
  tempC : Sensor -> float;
  tempF : Sensor -> float
}.

Definition set_tempC (v : Z) (s : Sensor) : Sensor :=
  {| name := name s; controlPin := controlPin s; raw := v |}.

(** The fields of [datetime.datetime.now()] that the code reads. *)
Record datetime : Type := {
  month : Z;
  hour : Z;
  minute : Z
}.

(** One call of [mqtt_pub.single]. *)
Record Publication : Type := {
  topic : string;
  payload : option float;
  hostname : pyval;
  port : Z;
  username : pyval;
  password : pyval
}.

(** A sensor object is a reference into [heap]; the registry and the
    groups hold references, so that they share the sensor they name. *)
Definition ref : Type := nat.

Record t : Type := {
  LOGGER : list LogRecord;
  board : Board;
  heap : ref -> Sensor;
  _mqtt : pyval;
  tempSettings : pyval;
  _mode : string;
  tempSensors : list ref;
  groups : list (string * list ref);
  _desiredTemp : pyval;
  _occupied : option bool;
  published : list Publication
}.

(** [self.modes]: assigned once in [__init__] and never again. *)
Definition modes : list string := ["AUTO"; "MANUAL"].

(** [Thermostat(board, mqtt, tempSettings)]; [sensors] are the sensor
    objects that exist outside the thermostat. *)
Definition __init__ (b : Board) (sensors : ref -> Sensor)
           (mqtt tempSettings : pyval) : t :=
  {| LOGGER := []; board := b; heap := sensors;
     _mqtt := mqtt; tempSettings := tempSettings;
     _mode := "AUTO"; tempSensors := []; groups := [];
     _desiredTemp := VNone; _occupied := None; published := [] |}.

Definition with_LOGGER (f : list LogRecord -> list LogRecord) (s : t) : t :=
  {| LOGGER := f (LOGGER s); board := board s; heap := heap s;
     _mqtt := _mqtt s; tempSettings := tempSettings s; _mode := _mode s;
     tempSensors := tempSensors s; groups := groups s;
     _desiredTemp := _desiredTemp s; _occupied := _occupied s;
     published := published s |}.

Definition with_board (f : Board -> Board) (s : t) : t :=
  {| LOGGER := LOGGER s; board := f (board s); heap := heap s;
     _mqtt := _mqtt s; tempSettings := tempSettings s; _mode := _mode s;
     tempSensors := tempSensors s; groups := groups s;
     _desiredTemp := _desiredTemp s; _occupied := _occupied s;
     published := published s |}.

Definition with_heap (f : (ref -> Sensor) -> ref -> Sensor) (s : t) : t :=
  {| LOGGER := LOGGER s; board := board s; heap := f (heap s);
     _mqtt := _mqtt s; tempSettings := tempSettings s; _mode := _mode s;
     tempSensors := tempSensors s; groups := groups s;
     _desiredTemp := _desiredTemp s; _occupied := _occupied s;
     published := published s |}.

Definition with_mqtt (v : pyval) (s : t) : t :=
  {| LOGGER := LOGGER s; board := board s; heap := heap s;
     _mqtt := v; tempSettings := tempSettings s; _mode := _mode s;
     tempSensors := tempSensors s; groups := groups s;
     _desiredTemp := _desiredTemp s; _occupied := _occupied s;
     published := published s |}.

Definition with_tempSettings (v : pyval) (s : t) : t :=
  {| LOGGER := LOGGER s; board := board s; heap := heap s;
     _mqtt := _mqtt s; tempSettings := v; _mode := _mode s;
     tempSensors := tempSensors s; groups := groups s;
     _desiredTemp := _desiredTemp s; _occupied := _occupied s;
     published := published s |}.

Definition with_mode (m : string) (s : t) : t :=
  {| LOGGER := LOGGER s; board := board s; heap := heap s;
     _mqtt := _mqtt s; tempSettings := tempSettings s; _mode := m;
     tempSensors := tempSensors s; groups := groups s;
     _desiredTemp := _desiredTemp s; _occupied := _occupied s;
     published := published s |}.

Definition with_tempSensors (f : list ref -> list ref) (s : t) : t :=
  {| LOGGER := LOGGER s; board := board s; heap := heap s;
     _mqtt := _mqtt s; tempSettings := tempSettings s; _mode := _mode s;
     tempSensors := f (tempSensors s); groups := groups s;
     _desiredTemp := _desiredTemp s; _occupied := _occupied s;
     published := published s |}.

Definition with_groups
           (f : list (string * list ref) -> list (string * list ref))
           (s : t) : t :=
  {| LOGGER := LOGGER s; board := board s; heap := heap s;
     _mqtt := _mqtt s; tempSettings := tempSettings s; _mode := _mode s;
     tempSensors := tempSensors s; groups := f (groups s);
     _desiredTemp := _desiredTemp s; _occupied := _occupied s;
     published := published s |}.

Definition with_desiredTemp (v : pyval) (s : t) : t :=
  {| LOGGER := LOGGER s; board := board s; heap := heap s;
     _mqtt := _mqtt s; tempSettings := tempSettings s; _mode := _mode s;
     tempSensors := tempSensors s; groups := groups s;
     _desiredTemp := v; _occupied := _occupied s;
     published := published s |}.

Definition with_occupied (o : option bool) (s : t) : t :=
  {| LOGGER := LOGGER s; board := board s; heap := heap s;
     _mqtt := _mqtt s; tempSettings := tempSettings s; _mode := _mode s;
     tempSensors := tempSensors s; groups := groups s;
     _desiredTemp := _desiredTemp s; _occupied := o;
     published := published s |}.

Definition with_published (f : list Publication -> list Publication)
           (s : t) : t :=
  {| LOGGER := LOGGER s; board := board s; heap := heap s;
     _mqtt := _mqtt s; tempSettings := tempSettings s; _mode := _mode s;
     tempSensors := tempSensors s; groups := groups s;
     _desiredTemp := _desiredTemp s; _occupied := _occupied s;
     published := f (published s) |}.

(** [self.LOGGER.<level>(msg.format(args))] *)
Definition log (lvl : Level) (m : string) (a : list fmtarg) : M t unit :=
  modify (with_LOGGER (fun l =>
            l ++ [{| level := lvl; msg := m; args := a |}])).

(** *** The [mode] property *)

Definition mode (s : t) : string := _mode s.

(** [mode in self.modes], giving the string it is when it is one. *)
Definition in_modes (v : pyval) : option string :=
  match v with
  | VStr m => if existsb (String.eqb m) modes then Some m else None
  | _ => None
  end.

Definition set_mode (v : pyval) : M t unit :=
  cur <- gets mode ;;
  match in_modes v with
  | Some m =>
      if negb (String.eqb m cur) then
        modify (with_mode m) ;;
        now_mode <- gets mode ;;
        log INFO "Thermostat mode changed to {}" [AStr now_mode]
      else
        log WARNING "{} is not a valid mode for this Thermostat" [AVal v]
  | None =>
      log WARNING "{} is not a valid mode for this Thermostat" [AVal v]
  end.

(** The two records the [mode] setter can log. *)
Definition invalid_mode_warning (v : pyval) : LogRecord :=
  {| level := WARNING;
     msg := "{} is not a valid mode for this Thermostat";
     args := [AVal v] |}.

Definition mode_changed_info (m : string) : LogRecord :=
  {| level := INFO; msg := "Thermostat mode changed to {}";
     args := [AStr m] |}.

(** *** The [occupied] property *)

Definition occupied (s : t) : option bool := _occupied s.

Definition set_occupied (homeList : pyval) : M t unit :=
  if truthy homeList then modify (with_occupied (Some true))
  else modify (with_occupied (Some false)).

(** Truth value of [self.occupied]: [None] and [False] are false. *)
Definition occupied_truthy (o : option bool) : bool :=
  match o with Some true => true | _ => false end.

(** *** The [mqtt] property; [mqtt_enabled] is the module's
    [MQTT_ENABLED] flag. *)

Definition mqtt (s : t) : pyval := _mqtt s.

Definition set_mqtt (mqtt_enabled : bool) (mqtt_variables : pyval)
  : M t unit :=
  if mqtt_enabled then modify (with_mqtt mqtt_variables)
  else modify (with_mqtt VNone).

(** *** getBetweenTime *)

Definition getBetweenTime (now : datetime) (timeList : pyval)
  : result bool :=
  (t0 <~ subscript timeList (VInt 0) ;;
   i0 <~ py_int t0 ;;
   zero1 <~ (if i0 =? 0 then Ok true
             else t1 <~ subscript timeList (VInt 1) ;;
                  i1 <~ py_int t1 ;;
                  Ok (i1 =? 0)) ;;
   if (zero1 : bool) then Ok true
   else
     s0 <~ subscript timeList (VInt 0) ;;
     sh <~ slice_to 2 s0 ;;
     startHour <~ py_int sh ;;
     s0' <~ subscript timeList (VInt 0) ;;
     sm <~ slice_from 2 s0' ;;
     startMinute <~ py_int sm ;;
     s1 <~ subscript timeList (VInt 1) ;;
     eh <~ slice_to 2 s1 ;;
     endHour <~ py_int eh ;;
     s1' <~ subscript timeList (VInt 1) ;;
     em <~ slice_from 2 s1' ;;
     endMinute <~ py_int em ;;
     if (startHour <=? hour now) && (startMinute <=? minute now) then
       if (hour now <=? endHour) && (minute now <? endMinute) then Ok true
       else Ok false
     else Ok false)%py.

(** The callable attributes of a Thermostat that take a time list:
    [self.<attr>] raises AttributeError for a name the class does not
    define. *)
Definition time_method (attr : string)
  : result (datetime -> pyval -> result bool) :=
  if String.eqb attr "getBetweenTime" then Ok getBetweenTime
  else Raise AttributeError.

(** *** The [desiredTemp] property *)

Definition desiredTemp (s : t) : pyval := _desiredTemp s.

(** The season whose table the setter reads, by the month tests as they
    are written. *)
Definition season_key (now : datetime) : option string :=
  if (11 <=? month now) || (month now <=? 3) then Some "WINTER"
  else if (7 <=? month now) || (month now <=? 9) then Some "SUMMER"
  else None.

(** [tempDict] is the dict stored in [self.tempSettings] under the season
    key, not a copy of it: reading it and popping from it go through the
    schedule table. *)
Definition tempDict (key : string) : M t pyval :=
  settings <- gets tempSettings ;;
  lift (subscript settings (VStr key)).

Definition store_item (container : pyval) (key : string) (v : pyval)
  : pyval :=
  match container with
  | VDict d => VDict (dict_set key v d)
  | _ => container
  end.

Definition tempDict_pop (key k : string) : M t pyval :=
  d <- tempDict key ;;
  popped <- lift (py_pop d k) ;;
  settings <- gets tempSettings ;;
  modify (with_tempSettings (store_item settings key (snd popped))) ;;
  ret (fst popped).

Definition is_KeyError (e : exn) : bool := exn_eqb e KeyError.

(** The record the setter logs in its KeyError handler. *)
Definition no_modifications_info : LogRecord :=
  {| level := INFO; msg := "No temp modifications"; args := [] |}.

(** The setter, with the attribute it looks up for the time test as a
    parameter; [now] is what [datetime.datetime.now()] returns. *)
Definition set_desiredTemp_calling (attr : string) (now : datetime)
           (temp : pyval) : M t unit :=
  if truthy temp then
    set_mode (VStr "MANUAL") ;;
    modify (with_desiredTemp temp)
  else
    try_except
      (match season_key now with
       | None => modify (with_desiredTemp VNone)
       | Some key =>
           _ <- tempDict key ;;
           startTemp <- tempDict_pop key "DEFAULT_TEMP" ;;
           modList <-
             try_except
               (occupiedSettings <- tempDict_pop key "OCCUPIED_SETTINGS" ;;
                occ <- gets occupied ;;
                if occupied_truthy occ then
                  home <- lift (subscript occupiedSettings (VStr "HOME")) ;;
                  items <- lift (py_iter home) ;;
                  ret ([] ++ items)
                else
                  away <- lift (subscript occupiedSettings (VStr "AWAY")) ;;
                  items <- lift (py_iter away) ;;
                  ret ([] ++ items))
               is_KeyError
               (ret []) ;;
           d <- tempDict key ;;
           settingTypes <- lift (py_iter d) ;;
           modList <-
             fold_each settingTypes modList (fun modList settingType =>
               d <- tempDict key ;;
               group <- lift (subscript d settingType) ;;
               vals <- lift (py_values group) ;;
               ret (modList ++ vals)) ;;
           modTemp <-
             fold_each modList (VInt 0) (fun modTemp mlist =>
               between <- lift (time_method attr) ;;
               m0 <- lift (subscript mlist (VInt 0)) ;;
               m1 <- lift (subscript mlist (VInt 1)) ;;
               applies <- lift (between now (VList [m0; m1])) ;;
               if (applies : bool) then
                 m2 <- lift (subscript mlist (VInt 2)) ;;
                 lift (py_add modTemp m2)
               else ret modTemp) ;;
           target <- lift (py_add startTemp modTemp) ;;
           modify (with_desiredTemp target)
       end)
      is_KeyError
      (log INFO "No temp modifications" [] ;;
       modify (with_desiredTemp temp)).

(** The setter as hvac.py has it: the attribute is spelled
    [getbetweenTime]. *)
Definition set_desiredTemp : datetime -> pyval -> M t unit :=
  set_desiredTemp_calling "getbetweenTime".

(** *** Sensors and groups *)

Definition sensor_in (sensor : ref) (l : list ref) : bool :=
  existsb (Nat.eqb sensor) l.

Definition addSensor (sensor : ref) : M t unit :=
  known <- gets tempSensors ;;
  if negb (sensor_in sensor known) then
    obj <- gets (fun s => heap s sensor) ;;
    modify (with_board (set_pin_mode (controlPin obj) ANALOG)) ;;
    modify (with_tempSensors (fun l => l ++ [sensor])) ;;
    log INFO "Sensor {} with control pin {} added to Thermostat"
        [AStr (name obj); AInt (controlPin obj)]
  else ret tt.

Definition createSensorGroup (groupName : string) : M t unit :=
  let groupName := upper groupName in
  gs <- gets groups ;;
  if negb (dict_has groupName gs) then
    modify (with_groups (dict_set groupName [])) ;;
    log INFO "Group {} created" [AStr groupName]
  else ret tt.

Definition addSensorToGroup (sensor : ref) (group : string) : M t unit :=
  gs <- gets groups ;;
  obj <- gets (fun s => heap s sensor) ;;
  match dict_get group gs with
  | Some members =>
      known <- gets tempSensors ;;
      if sensor_in sensor known then
        if negb (sensor_in sensor members) then
          modify (with_groups (dict_set group (members ++ [sensor]))) ;;
          log INFO "Sensor {} added to group {}" [AStr (name obj); AStr group]
        else
          log WARNING "Sensor {} is already in group {}"
              [AStr (name obj); AStr group]
      else
        log WARNING
            "You must add the sensor {} to the Thermostat before adding to a group"
            [AStr (name obj)]
  | None =>
      log WARNING "Group {} does not exist to add a sensor to" [AStr group]
  end.

Definition heap_set (r : ref) (v : Sensor) (h : ref -> Sensor)
  : ref -> Sensor :=
  fun r' => if Nat.eqb r' r then v else h r'.

Definition updateSensors : M t unit :=
  known <- gets tempSensors ;;
  for_each known (fun sensor =>
    obj <- gets (fun s => heap s sensor) ;;
    b <- gets board ;;
    let '(v, b') := analog_read (controlPin obj) b in
    modify (with_board (fun _ => b')) ;;
    modify (with_heap (heap_set sensor (set_tempC v obj))) ;;
    log DEBUG "Updated sensor {}" [AStr (name obj)]).

Section Readings.
Context {SC : SensorClass}.

Definition reading (tempFormat : string) (obj : Sensor) : float :=
  if String.eqb tempFormat "F" then tempF obj else tempC obj.

(** [getTemp(area, tempFormat)]; [None] is Python's [None].  The sum
    starts from the integer 0, which the first [+=] turns into the float
    0.0 plus the reading; [/] divides by the length as a float and is
    reached with a length of 0 only for the integer 0. *)
Definition getTemp (area tempFormat : string) : M t (option float) :=
  gs <- gets groups ;;
  match dict_get (upper area) gs with
  | Some members =>
      temp <- fold_each members PrimFloat.zero (fun temp sensor =>
                obj <- gets (fun s => heap s sensor) ;;
                ret (PrimFloat.add temp (reading tempFormat obj))) ;;
      gs' <- gets groups ;;
      members' <- lift (match dict_get (upper area) gs' with
                        | Some m => Ok m
                        | None => Raise KeyError
                        end) ;;
      groupTemp <- (if Nat.eqb (List.length members') 0
                    then raise ZeroDivisionError
                    else ret (PrimFloat.div temp
                                (float_of_len (List.length members')))) ;;
      log DEBUG "{} temp is {}" [AStr area; AFloat groupTemp] ;;
      ret (Some groupTemp)
  | None =>
      known <- gets tempSensors ;;
      found <- for_each_return known (fun sensor =>
                 obj <- gets (fun s => heap s sensor) ;;
                 if String.eqb (upper area) (name obj) then
                   let temp := reading tempFormat obj in
                   log DEBUG "Sensor {}: {}" [AStr area; AFloat temp] ;;
                   ret (Some temp)
                 else ret None) ;;
      match found with
      | Some temp => ret (Some temp)
      | None =>
          log WARNING "No area {} in Thermostat sensors or groups"
              [AStr (upper area)] ;;
          ret None
      end
  end.

(** [mqtt_pub.single(topic, payload=temp, ..., hostname=self.mqtt["HOST"],
    port=int(self.mqtt["PORT"]), auth={...})] *)
Definition mqtt_single (topic : string) (temp : option float) : M t unit :=
  cfg <- gets mqtt ;;
  host <- lift (subscript cfg (VStr "HOST")) ;;
  portv <- lift (subscript cfg (VStr "PORT")) ;;
  portz <- lift (py_int portv) ;;
  user <- lift (subscript cfg (VStr "USER")) ;;
  pass <- lift (subscript cfg (VStr "PASSWORD")) ;;
  modify (with_published (fun l =>
    l ++ [{| topic := topic; payload := temp; hostname := host;
             port := portz; username := user; password := pass |}])).

(** [publish()]; [mqtt_enabled] is the module's [MQTT_ENABLED] flag. *)
Definition publish (mqtt_enabled : bool) : M t unit :=
  cfg <- gets mqtt ;;
  if mqtt_enabled && truthy cfg then
    known <- gets tempSensors ;;
    for_each known (fun sensor =>
      obj <- gets (fun s => heap s sensor) ;;
      temp <- getTemp (name obj) "F" ;;
      cfg <- gets mqtt ;;
      path <- lift (subscript cfg (VStr "PATH")) ;;
      topic <- lift (str_join "/" [path; VStr (lower (name obj))]) ;;
      mqtt_single topic temp) ;;
    gs <- gets groups ;;
    for_each (map fst gs) (fun area =>
      temp <- getTemp area "F" ;;
      cfg <- gets mqtt ;;
      path <- lift (subscript cfg (VStr "PATH")) ;;
      topic <- lift (str_join "/" [path; VStr (lower area)]) ;;
      mqtt_single topic temp)
  else
    log WARNING "MQTT is either not enabled, or not setup correct" [].

(** *** The operations a caller has on a Thermostat *)

Inductive op : Type :=
| SetMode (v : pyval)
| SetDesiredTemp (now : datetime) (temp : pyval)
| SetMqtt (mqtt_enabled : bool) (v : pyval)
| SetOccupied (homeList : pyval)
| AddSensor (sensor : ref)
| CreateSensorGroup (groupName : string)
| AddSensorToGroup (sensor : ref) (group : string)
| UpdateSensors
| GetTemp (area tempFormat : string)
| Publish (mqtt_enabled : bool)
| GetBetweenTime (now : datetime) (timeList : pyval).

Definition discard {A} (c : M t A) : M t unit := _ <- c ;; ret tt.

Definition run (o : op) : M t unit :=
  match o with
  | SetMode v => set_mode v
  | SetDesiredTemp now temp => set_desiredTemp now temp
  | SetMqtt e v => set_mqtt e v
  | SetOccupied h => set_occupied h
  | AddSensor r => addSensor r
  | CreateSensorGroup g => createSensorGroup g
  | AddSensorToGroup r g => addSensorToGroup r g
  | UpdateSensors => updateSensors
  | GetTemp a f => discard (getTemp a f)
  | Publish e => publish e
  | GetBetweenTime now tl => discard (lift (getBetweenTime now tl))
  end.

Definition assigns_mode (o : op) : bool :=
  match o with SetMode _ => true | _ => false end.

Definition assigns_desiredTemp (o : op) : bool :=
  match o with SetDesiredTemp _ _ => true | _ => false end.

(** The states a Thermostat can be in: as constructed, then after any
    number of operations, whether they return or raise. *)
Inductive reachable : t -> Prop :=
| reachable_init : forall b sensors mqtt settings,
    reachable (__init__ b sensors mqtt settings)
| reachable_run : forall s o,
    reachable s -> reachable (snd (run o s)).

(** A sequence of operations, each run on the state the previous one
    left. *)
Fixpoint run_all (os : list op) (s : t) : t :=
  match os with
  | [] => s
  | o :: r => run_all r (snd (run o s))
  end.

End Readings.

End Thermostat.

(* ================================================================= *)
(** ** classes Heater, AirConditioner, Vent

    The three classes have the same body; one record stands for all,
    tagged by the class it is an instance of. *)

Module Actuator.
Import Py Pymata Logging.
#[local] Open Scope py_scope.

Inductive device : Type := Heater | AirConditioner | Vent.

Record t : Type := {
  kind : device;
  board : Board;
  controlPins : list Z;
  _state : pyval
}.

Definition with_board (f : Board -> Board) (a : t) : t :=
  {| kind := kind a; board := f (board a);
     controlPins := controlPins a; _state := _state a |}.

Definition with_state (v : pyval) (a : t) : t :=
  {| kind := kind a; board := board a;
     controlPins := controlPins a; _state := v |}.

(** [Heater(board, controlPins)] and its two siblings. *)
Definition __init__ (k : device) (b : Board) (pins : list Z) : t :=
  {| kind := k;
     board := fold_left (fun b pin => set_pin_mode pin OUTPUT b) pins b;
     controlPins := pins;
     _state := VStr "OFF" |}.

Definition state (a : t) : pyval := _state a.

(** [self.controlPins[i]] *)
Definition controlPin (i : Z) : M t Z :=
  pins <- gets controlPins ;;
  lift (seq_index pins i).

Definition turnOn : M t unit :=
  p <- controlPin 0 ;;
  modify (with_board (digital_write p 1)) ;;
  modify (with_board (sleep 100)) ;;
  p <- controlPin 0 ;;
  modify (with_board (digital_write p 0)) ;;
  modify (with_board (sleep 100)).

Definition turnOff : M t unit :=
  p <- controlPin 1 ;;
  modify (with_board (digital_write p 1)) ;;
  modify (with_board (sleep 100)) ;;
  p <- controlPin 1 ;;
  modify (with_board (digital_write p 0)) ;;
  modify (with_board (sleep 100)).

(** [v.upper()] *)
Definition py_upper (v : pyval) : result string :=
  match v with
  | VStr s => Ok (upper s)
  | _ => Raise AttributeError
  end.

(** The [state] setter.  Its OFF branch ends in [self.turnOff], which
    names the method without calling it: evaluating the attribute gives
    the bound method, here [_ : M t unit], and nothing runs. *)
Definition set_state (onOff : pyval) : M t unit :=
  u <- lift (py_upper onOff) ;;
  (if String.eqb u "ON" then
     modify (with_state onOff) ;;
     turnOn
   else ret tt) ;;
  u <- lift (py_upper onOff) ;;
  if String.eqb u "OFF" then
    modify (with_state onOff) ;;
    let _ := turnOff in
    ret tt
  else ret tt.

End Actuator.

(* ================================================================= *)
(** ** class HVAC *)

Module HVAC.
Import Py Pymata Logging.
#[local] Open Scope py_scope.

(** [self.board] exists only when the connection to the Arduino was
    made; the devices are attached from outside and start as None. *)
Record t : Type := {
  LOGGER : list LogRecord;
  board : option Board;
  heater : option Actuator.t;
  ac : option Actuator.t;
  vent : option Actuator.t;
  thermostat : option Thermostat.t
}.

Definition cannot_connect (port : pyval) : LogRecord :=
  if truthy port
  then {| level := ERROR; msg := "Cannot connect to com port {}";
          args := [AVal port] |}
  else {| level := ERROR; msg := "Cannot connect to default com port";
          args := [] |}.

(** The body of [HVAC(name, port)] for a connection attempt [connect]
    that returns a board or raises an exception of class Exception,
    which [except Exception] catches and logs; [construct] below is the
    whole constructor. *)
Definition __init__ (name port : pyval) (connect : result Board) : t :=
  {| LOGGER := match connect with
               | Ok _ => []
               | Raise _ => [cannot_connect port]
               end;
     board := match connect with Ok b => Some b | Raise _ => None end;
     heater := None; ac := None; vent := None; thermostat := None |}.




Definition with_heater (a : option Actuator.t) (h : t) : t :=
  {| LOGGER := LOGGER h; board := board h; heater := a; ac := ac h;
     vent := vent h; thermostat := thermostat h |}.



(** [self.<device>.state = state]: on None the attribute assignment
    raises AttributeError; on a device it is the device's setter. *)
Definition assign_state (get : t -> option Actuator.t)
           (set : option Actuator.t -> t -> t) (state : pyval) : M t unit :=
  fun h => match get h with
           | None => (Raise AttributeError, h)
           | Some a => let r := Actuator.set_state state a in
                       (fst r, set (Some (snd r)) h)
           end.

Definition changeHeatState (state : pyval) : M t unit :=
  assign_state heater with_heater state.



End HVAC.

(* ================================================================= *)
(** ** Concrete boards, sensors and schedule tables for the examples *)

Module Examples.
Import Py Pymata Logging.

Definition idle_board : Board := {| trace := []; analog_in := fun _ => 0 |}.

(** A sensor class whose Celsius value is the raw value. *)
#[export] Instance plain_sensors : Thermostat.SensorClass := {|
  Thermostat.tempC := fun s => float_of_Z (Thermostat.raw s);
  Thermostat.tempF := fun s =>
    PrimFloat.add
      (PrimFloat.div (PrimFloat.mul (float_of_Z (Thermostat.raw s))
                                    (float_of_Z 9))
                     (float_of_Z 5))
      (float_of_Z 32)
|}.

Definition kitchen : Thermostat.Sensor :=
  {| Thermostat.name := "Kitchen"; Thermostat.controlPin := 0;
     Thermostat.raw := 20 |}.

Definition at_time (mo h mi : Z) : Thermostat.datetime :=
  {| Thermostat.month := mo; Thermostat.hour := h; Thermostat.minute := mi |}.

(** Winter, base 68, one always-on modifier of -2, an always-on AWAY
    modifier of -3. *)
Definition winter_table : pyval :=
  VDict [("WINTER",
          VDict [("DEFAULT_TEMP", VInt 68);
                 ("OCCUPIED_SETTINGS",
                  VDict [("HOME", VList []);
                         ("AWAY", VList [VList [VStr "0"; VStr "0";
                                                VInt (-3)]])]);
                 ("NIGHT",
                  VDict [("setback", VList [VStr "0"; VStr "0";
                                            VInt (-2)])])])].

Definition summer_table : pyval :=
  VDict [("SUMMER", VDict [("DEFAULT_TEMP", VInt 75)])].

Definition fresh (settings : pyval) : Thermostat.t :=
  Thermostat.__init__ idle_board (fun _ => kitchen) VNone settings.

Definition mqtt_settings : pyval :=
  VDict [("PATH", VStr "home"); ("HOST", VStr "broker"); ("PORT", VStr "1883");
         ("USER", VStr "hvac"); ("PASSWORD", VStr "secret")].

Definition heater : Actuator.t :=
  Actuator.__init__ Actuator.Heater idle_board [2; 3].

(** Three sensors on pins 0, 1, 2 with raw values 10, 20, 30. *)
Definition probe (r : Thermostat.ref) : Thermostat.Sensor :=
  {| Thermostat.name := match r with
                        | 0%nat => "KITCHEN"
                        | 1%nat => "HALL"
                        | 2%nat => "ATTIC"
                        | _ => "SPARE"
                        end;
     Thermostat.controlPin := Z.of_nat r;
     Thermostat.raw := 10 * (Z.of_nat r + 1) |}.

(** A board whose analog pin [p] reads [100 + p]. *)
Definition live_board : Board :=
  {| trace := []; analog_in := fun p => 100 + p |}.

(** A thermostat with the three probes registered and grouped as
    "HOUSE". *)
Definition house : Thermostat.t :=
  Thermostat.run_all
    [Thermostat.AddSensor 0%nat; Thermostat.AddSensor 1%nat;
     Thermostat.AddSensor 2%nat; Thermostat.CreateSensorGroup "house";
     Thermostat.AddSensorToGroup 0%nat "HOUSE";
     Thermostat.AddSensorToGroup 1%nat "HOUSE";
     Thermostat.AddSensorToGroup 2%nat "HOUSE"]
    (Thermostat.__init__ live_board probe VNone VNone).

(** Three sensors with raw values 10, 20, 40, grouped as "CABIN": their
    mean is not a binary64 number. *)
Definition gauge (r : Thermostat.ref) : Thermostat.Sensor :=
  {| Thermostat.name := Thermostat.name (probe r);
     Thermostat.controlPin := Z.of_nat r;
     Thermostat.raw := 10 * 2 ^ Z.of_nat r |}.

Definition cabin : Thermostat.t :=
  Thermostat.run_all
    [Thermostat.AddSensor 0%nat; Thermostat.AddSensor 1%nat;
     Thermostat.AddSensor 2%nat; Thermostat.CreateSensorGroup "cabin";
     Thermostat.AddSensorToGroup 0%nat "CABIN";
     Thermostat.AddSensorToGroup 1%nat "CABIN";
     Thermostat.AddSensorToGroup 2%nat "CABIN"]
    (Thermostat.__init__ live_board gauge VNone VNone).

End Examples.

(* ================================================================= *)
(** ** Well-formedness of the sensor registry *)

Module Registry.
Import Py Thermostat.

(** No sensor is registered twice; every group lists each member once,
    and only registered sensors. *)
Definition members_ok (s : t) : Prop :=
  NoDup (tempSensors s)
  /\ Forall (fun g => NoDup (snd g) /\ incl (snd g) (tempSensors s))
            (groups s).

(** Group names are distinct and stored in upper case. *)
Definition names_ok (s : t) : Prop :=
  NoDup (map fst (groups s))
  /\ Forall (fun g => upper (fst g) = fst g) (groups s).

(** The operations that can change the registry. *)
Definition touches_registry (o : op) : bool :=
  match o with
  | AddSensor _ | CreateSensorGroup _ | AddSensorToGroup _ _ => true
  | _ => false
  end.

(** The records [addSensorToGroup] and [getTemp] can log. *)
Definition no_group_warning (group : string) : Logging.LogRecord :=
  {| Logging.level := Logging.WARNING;
     Logging.msg := "Group {} does not exist to add a sensor to";
     Logging.args := [Logging.AStr group] |}.

Definition not_registered_warning (sensor_name : string)
  : Logging.LogRecord :=
  {| Logging.level := Logging.WARNING;
     Logging.msg :=
       "You must add the sensor {} to the Thermostat before adding to a group";
     Logging.args := [Logging.AStr sensor_name] |}.

Definition already_member_warning (sensor_name group : string)
  : Logging.LogRecord :=
  {| Logging.level := Logging.WARNING;
     Logging.msg := "Sensor {} is already in group {}";
     Logging.args := [Logging.AStr sensor_name; Logging.AStr group] |}.

Definition added_to_group_info (sensor_name group : string)
  : Logging.LogRecord :=
  {| Logging.level := Logging.INFO;
     Logging.msg := "Sensor {} added to group {}";
     Logging.args := [Logging.AStr sensor_name; Logging.AStr group] |}.

Definition no_area_warning (area : string) : Logging.LogRecord :=
  {| Logging.level := Logging.WARNING;
     Logging.msg := "No area {} in Thermostat sensors or groups";
     Logging.args := [Logging.AStr (upper area)] |}.

Definition group_temp_debug (area : string) (groupTemp : float)
  : Logging.LogRecord :=
  {| Logging.level := Logging.DEBUG; Logging.msg := "{} temp is {}";
     Logging.args := [Logging.AStr area; Logging.AFloat groupTemp] |}.

Definition sensor_temp_debug (area : string) (temp : float)
  : Logging.LogRecord :=
  {| Logging.level := Logging.DEBUG; Logging.msg := "Sensor {}: {}";
     Logging.args := [Logging.AStr area; Logging.AFloat temp] |}.

Definition mqtt_warning : Logging.LogRecord :=
  {| Logging.level := Logging.WARNING;
     Logging.msg := "MQTT is either not enabled, or not setup correct";
     Logging.args := [] |}.



(** One round of either loop of [publish], for a sensor name or a group
    name: reading the temperature, building the topic, publishing. *)
Definition publish_one {SC : SensorClass} (area : string) : M t unit :=
  bind (getTemp area "F") (fun temp =>
  bind (gets mqtt) (fun cfg =>
  bind (lift (subscript cfg (VStr "PATH"))) (fun path =>
  bind (lift (str_join "/" [path; VStr (lower area)])) (fun topic =>
  mqtt_single topic temp)))).

End Registry.

(* ================================================================= *)
(** ** Facts about the Python layer *)

Module PyFacts.
Import Py.

Lemma dict_get_set_same {V} (k : string) (v : V) (d : list (string * V)) :
  dict_get k (dict_set k v d) = Some v.
Proof.
  induction d as [|[k' v'] d IH]; simpl.
  - now rewrite String.eqb_refl.
  - destruct (String.eqb k k') eqn:E; simpl; rewrite E; auto.
Qed.

Lemma dict_get_del_same {V} (k : string) (d : list (string * V)) :
  dict_get k (dict_del k d) = None.
Proof.
  induction d as [|[k' v'] d IH]; simpl; auto.
  destruct (String.eqb k k') eqn:E; simpl; auto.
  now rewrite E.
Qed.

Lemma dict_get_del_none {V} (k k' : string) (d : list (string * V)) :
  dict_get k d = None -> dict_get k (dict_del k' d) = None.
Proof.
  induction d as [|[k0 v0] d IH]; simpl; auto.
  destruct (String.eqb k k0) eqn:E; [discriminate|].
  intros H. destruct (String.eqb k' k0); simpl; auto.
  rewrite E. auto.
Qed.

Lemma dict_del_absent {V} (k : string) (d : list (string * V)) :
  dict_get k d = None -> dict_del k d = d.
Proof.
  induction d as [|[k0 v0] d IH]; simpl; auto.
  destruct (String.eqb k k0) eqn:E; [discriminate|].
  intros H. simpl. f_equal. now apply IH.
Qed.

Lemma dict_set_set {V} (k : string) (v v' : V) (d : list (string * V)) :
  dict_set k v' (dict_set k v d) = dict_set k v' d.
Proof.
  induction d as [|[k0 v0] d IH]; simpl.
  - now rewrite String.eqb_refl.
  - destruct (String.eqb k k0) eqn:E; simpl; rewrite E; auto.
    now rewrite IH.
Qed.

(** *** [int] on digit strings *)

Lemma digit_is_plain (c : ascii) :
  is_digit c = true ->
  is_space c = false /\ Ascii.eqb c "-" = false /\ Ascii.eqb c "+" = false.
Proof.
  destruct c as [[] [] [] [] [] [] [] []]; vm_compute; intros H;
    try discriminate; auto.
Qed.

Lemma parse_digits_all_digits (s : string) (acc : Z) (b : bool) :
  all_digits s = true -> b = true \/ s <> EmptyString ->
  parse_digits s acc b = Some (decimal_from acc s).
Proof.
  revert acc b. induction s as [|c r IH]; intros acc b Hd Hb; simpl in *.
  - destruct Hb as [-> | Hb]; [reflexivity | congruence].
  - apply andb_true_iff in Hd as [Hc Hr]. rewrite Hc. apply IH; auto.
Qed.

Lemma all_digits_rev_onto (s acc : string) :
  all_digits (str_rev_onto s acc) = all_digits s && all_digits acc.
Proof.
  revert acc. induction s as [|c r IH]; intros acc; simpl; auto.
  rewrite IH. simpl. destruct (is_digit c), (all_digits r); reflexivity.
Qed.

Lemma str_rev_onto_twice (s a b : string) :
  str_rev_onto (str_rev_onto s a) b = str_rev_onto a (s ++ b)%string.
Proof.
  revert a b. induction s as [|c r IH]; intros a b; simpl; auto.
Qed.

Lemma str_append_empty (s : string) : (s ++ "")%string = s.
Proof. induction s; simpl; congruence. Qed.

Lemma str_rev_involutive (s : string) : str_rev (str_rev s) = s.
Proof.
  unfold str_rev. rewrite str_rev_onto_twice. simpl. apply str_append_empty.
Qed.

Lemma lstrip_digits (s : string) : all_digits s = true -> lstrip s = s.
Proof.
  destruct s as [|c r]; simpl; auto. intros H.
  apply andb_true_iff in H as [Hc _].
  now destruct (digit_is_plain c Hc) as (-> & _).
Qed.

Lemma strip_digits (s : string) : all_digits s = true -> strip s = s.
Proof.
  intros H. unfold strip. rewrite (lstrip_digits s H).
  rewrite lstrip_digits.
  - apply str_rev_involutive.
  - unfold str_rev. rewrite all_digits_rev_onto, H. reflexivity.
Qed.

(** On a non-empty digit string [int] returns its decimal value. *)
Lemma int_of_str_number (s : string) :
  is_number s = true -> int_of_str s = Ok (decimal s).
Proof.
  unfold is_number. intros H. apply andb_true_iff in H as [Hd Hne].
  unfold int_of_str. rewrite (strip_digits s Hd).
  destruct s as [|c r]; [discriminate|].
  pose proof Hd as Hd'. simpl in Hd'. apply andb_true_iff in Hd' as [Hc _].
  destruct (digit_is_plain c Hc) as (_ & -> & ->).
  rewrite parse_digits_all_digits; auto. right; discriminate.
Qed.

Lemma all_digits_take (n : nat) (s : string) :
  all_digits s = true -> all_digits (str_take n s) = true.
Proof.
  revert s. induction n as [|n IH]; intros [|c r]; simpl; auto.
  intros H. apply andb_true_iff in H as [-> Hr]. simpl. auto.
Qed.

Lemma all_digits_drop (n : nat) (s : string) :
  all_digits s = true -> all_digits (str_drop n s) = true.
Proof.
  revert s. induction n as [|n IH]; intros [|c r]; simpl; auto.
  intros H. apply andb_true_iff in H as [_ Hr]. auto.
Qed.

(** The two halves [s[:2]] and [s[2:]] of a digit string of three or
    more characters are numbers. *)
Lemma halves_are_numbers (s : string) :
  all_digits s = true -> (3 <= String.length s)%nat ->
  is_number (str_take 2 s) = true /\ is_number (str_drop 2 s) = true.
Proof.
  intros Hd Hl. unfold is_number.
  rewrite (all_digits_take 2 s Hd), (all_digits_drop 2 s Hd).
  destruct s as [|a [|b [|c r]]]; simpl in Hl; try lia. auto.
Qed.

(** *** What a computation leaves alone *)

Section Keeps.
Context {S X : Type} (f : S -> X).

Lemma keeps_ret {A} (a : A) : keeps f (ret a).
Proof. intro s. reflexivity. Qed.

Lemma keeps_raise {A} (e : exn) : keeps f (@raise S A e).
Proof. intro s. reflexivity. Qed.

Lemma keeps_gets {A} (g : S -> A) : keeps f (gets g).
Proof. intro s. reflexivity. Qed.

Lemma keeps_lift {A} (r : result A) : keeps f (lift r).
Proof. intro s. reflexivity. Qed.

Lemma keeps_modify (g : S -> S) :
  (forall s, f (g s) = f s) -> keeps f (modify g).
Proof. intros H s. apply H. Qed.

Lemma keeps_bind {A B} (c : M S A) (k : A -> M S B) :
  keeps f c -> (forall a, keeps f (k a)) -> keeps f (bind c k).
Proof.
  intros Hc Hk s. unfold bind. specialize (Hc s).
  destruct (c s) as [[a|e] s']; simpl in *.
  - now rewrite Hk.
  - assumption.
Qed.

Lemma keeps_try_except {A} (body handler : M S A) (catches : exn -> bool) :
  keeps f body -> keeps f handler -> keeps f (try_except body catches handler).
Proof.
  intros Hb Hh s. unfold try_except. specialize (Hb s).
  destruct (body s) as [[a|e] s']; simpl in *; auto.
  destruct (catches e); simpl; auto.
  now rewrite Hh.
Qed.

Lemma keeps_for_each {A} (l : list A) (body : A -> M S unit) :
  (forall x, keeps f (body x)) -> keeps f (for_each l body).
Proof.
  intros Hb. induction l as [|x l IH]; simpl.
  - apply keeps_ret.
  - apply keeps_bind; auto.
Qed.

Lemma keeps_fold_each {A B} (l : list A) (acc : B) (body : B -> A -> M S B) :
  (forall b x, keeps f (body b x)) -> keeps f (fold_each l acc body).
Proof.
  intros Hb. revert acc. induction l as [|x l IH]; intros acc; simpl.
  - apply keeps_ret.
  - apply keeps_bind; auto.
Qed.

Lemma keeps_for_each_return {A R} (l : list A)
      (body : A -> M S (option R)) :
  (forall x, keeps f (body x)) -> keeps f (for_each_return l body).
Proof.
  intros Hb. induction l as [|x l IH]; simpl.
  - apply keeps_ret.
  - apply keeps_bind; auto. intros [v|]; auto. apply keeps_ret.
Qed.

End Keeps.

(** Decomposes a [keeps] goal along the program text; goals about
    [modify] are closed when the update does not concern the field. *)
Ltac keeps_step :=
  match goal with
  | |- keeps _ (bind _ _) => apply keeps_bind; [|intros]
  | |- keeps _ (ret _) => apply keeps_ret
  | |- keeps _ (raise _) => apply keeps_raise
  | |- keeps _ (gets _) => apply keeps_gets
  | |- keeps _ (lift _) => apply keeps_lift
  | |- keeps _ (modify _) => apply keeps_modify; intros; reflexivity
  | |- keeps _ (try_except _ _ _) => apply keeps_try_except
  | |- keeps _ (for_each _ _) => apply keeps_for_each; intros
  | |- keeps _ (fold_each _ _ _) => apply keeps_fold_each; intros
  | |- keeps _ (for_each_return _ _) => apply keeps_for_each_return; intros
  | |- keeps _ (if ?b then _ else _) => destruct b
  | |- keeps _ (match ?x with _ => _ end) => destruct x
  | |- keeps _ (let _ := _ in _) => cbv zeta
  end.

Ltac keeps_auto := repeat keeps_step.

End PyFacts.

(* ================================================================= *)
(** ** Thermostat: what each operation leaves alone *)

Module ThermostatFrames.
Import Py PyFacts Pymata Logging Thermostat.
#[local] Open Scope py_scope.

Ltac unfold_ops :=
  unfold run, discard, publish, mqtt_single, getTemp, updateSensors,
    addSensorToGroup, createSensorGroup, addSensor, set_occupied, set_mqtt,
    tempDict_pop, tempDict, log.

Ltac op_keeps := unfold_ops; keeps_auto.

Section WithSensors.
Context {SC : SensorClass}.

Lemma set_mode_keeps_desiredTemp v : keeps _desiredTemp (set_mode v).
Proof. unfold set_mode. op_keeps. Qed.

Lemma run_keeps_desiredTemp (o : op) :
  assigns_desiredTemp o = false -> keeps _desiredTemp (run o).
Proof.
  destruct o; simpl; try discriminate; intros _;
    try apply set_mode_keeps_desiredTemp; op_keeps.
Qed.

Lemma run_keeps_mode (o : op) :
  assigns_mode o = false -> assigns_desiredTemp o = false ->
  keeps _mode (run o).
Proof.
  destruct o; simpl; try discriminate; intros _ _; op_keeps.
Qed.

End WithSensors.

(** The AUTO branch of the [desiredTemp] setter never assigns the mode. *)
Lemma set_desiredTemp_auto_keeps_mode attr now temp :
  truthy temp = false -> keeps _mode (set_desiredTemp_calling attr now temp).
Proof.
  intros Hf. unfold set_desiredTemp_calling. rewrite Hf. op_keeps.
Qed.

End ThermostatFrames.

(* ================================================================= *)
(** ** Actuators: the [state] setter *)

Module ActuatorSpec.
Import Py Pymata Actuator.

(** The ON branch: the state is recorded as given and one pulse (high,
    100 ms, low, 100 ms) goes to [controlPins[0]]. *)
Lemma set_state_ON_pulses (a : t) (p : Z) (rest : list Z) :
  controlPins a = p :: rest ->
  set_state (VStr "ON") a =
    (Ok tt,
     with_board (fun b => sleep 100 (digital_write p 0
                            (sleep 100 (digital_write p 1 b))))
                (with_state (VStr "ON") a)).
Proof.
  intros Hp. unfold set_state, turnOn, controlPin, bind, gets, lift, modify.
  simpl. rewrite Hp. reflexivity.
Qed.

(** Two assignments of "ON" in a row: two pulses, one per call. *)
Lemma set_state_ON_twice (a : t) (p : Z) (rest : list Z) :
  controlPins a = p :: rest ->
  let a2 := snd (set_state (VStr "ON") (snd (set_state (VStr "ON") a))) in
  state a2 = VStr "ON"
  /\ trace (board a2) =
       trace (board a)
       ++ [DigitalWrite p 1; Sleep 100; DigitalWrite p 0; Sleep 100]
       ++ [DigitalWrite p 1; Sleep 100; DigitalWrite p 0; Sleep 100].
Proof.
  intros Hp. cbv zeta. rewrite (set_state_ON_pulses a p rest Hp). simpl snd.
  rewrite (set_state_ON_pulses _ p rest) by exact Hp.
  split; [reflexivity|]. simpl. now rewrite <- !app_assoc.
Qed.

(** On a heater wired to pins 2 and 3, assigning "OFF" leaves on the
    board only the two [set_pin_mode] calls of the constructor. *)
Lemma heater_OFF_trace :
  trace (board (snd (set_state (VStr "OFF") Examples.heater)))
  = [SetPinMode 2 OUTPUT; SetPinMode 3 OUTPUT].
Proof. reflexivity. Qed.

(** C3, on the code: assigning "OFF" to [state] records the state and
    returns without a single call on the board, so no pulse reaches any
    channel; the OFF branch names [self.turnOff] and does not call it. *)
Theorem set_state_OFF_emits_no_pulse (a : t) :
  set_state (VStr "OFF") a = (Ok tt, with_state (VStr "OFF") a)
  /\ state (snd (set_state (VStr "OFF") a)) = VStr "OFF"
  /\ trace (board (snd (set_state (VStr "OFF") a))) = trace (board a).
Proof. repeat split. Qed.

End ActuatorSpec.

(* ================================================================= *)
(** ** Thermostat: sensors, readings, mode and target *)

Module ThermostatSpec.
Import Py PyFacts Pymata Logging Thermostat ThermostatFrames Examples.
#[local] Open Scope py_scope.

Lemma bind_ok {S A B} (c : M S A) (k : A -> M S B) s a s' :
  c s = (Ok a, s') -> bind c k s = k a s'.
Proof. intros H. unfold bind. now rewrite H. Qed.

Lemma bind_raise {S A B} (c : M S A) (k : A -> M S B) s e s' :
  c s = (Raise e, s') -> bind c k s = (Raise e, s').
Proof. intros H. unfold bind. now rewrite H. Qed.

Lemma sensor_in_app (r : ref) (l l' : list ref) :
  sensor_in r (l ++ l') = sensor_in r l || sensor_in r l'.
Proof. apply existsb_app. Qed.

(** C7: registering a sensor that was just registered changes nothing:
    the second [addSensor] returns with the state untouched, so the
    number of registered sensors and the membership of every sensor are
    the same as after the first. *)
Theorem addSensor_idempotent (th : t) (sensor : ref) :
  let once := snd (addSensor sensor th) in
  let twice := snd (addSensor sensor once) in
  addSensor sensor once = (Ok tt, once)
  /\ List.length (tempSensors twice) = List.length (tempSensors once)
  /\ (forall r, sensor_in r (tempSensors twice) = sensor_in r (tempSensors once))
  /\ sensor_in sensor (tempSensors once) = true.
Proof.
  assert (Hin : sensor_in sensor (tempSensors (snd (addSensor sensor th))) = true).
  { unfold addSensor, bind, gets, modify, log; simpl.
    destruct (sensor_in sensor (tempSensors th)) eqn:E; simpl; auto.
    rewrite sensor_in_app, E. simpl. now rewrite Nat.eqb_refl. }
  assert (Hstep : addSensor sensor (snd (addSensor sensor th))
                  = (Ok tt, snd (addSensor sensor th))).
  { unfold addSensor at 1. unfold bind, gets. simpl. now rewrite Hin. }
  cbv zeta. rewrite Hstep. simpl. auto.
Qed.

(** *** The mode *)

Lemma set_mode_eq (v : pyval) (s : t) :
  set_mode v s =
    (Ok tt,
     match in_modes v with
     | Some m =>
         if String.eqb m (mode s)
         then with_LOGGER (fun l => l ++ [invalid_mode_warning v]) s
         else with_LOGGER (fun l => l ++ [mode_changed_info m]) (with_mode m s)
     | None => with_LOGGER (fun l => l ++ [invalid_mode_warning v]) s
     end).
Proof.
  unfold set_mode, bind, gets, log, modify. simpl.
  destruct (in_modes v) as [m|]; [|reflexivity].
  destruct (String.eqb m (mode s)); reflexivity.
Qed.

Lemma in_modes_Some (v : pyval) (m : string) :
  in_modes v = Some m -> v = VStr m /\ (m = "AUTO" \/ m = "MANUAL").
Proof.
  destruct v as [| |s| |]; simpl; try discriminate.
  destruct (String.eqb s "AUTO") eqn:Ea; simpl.
  - intros H; inversion H; subst. apply String.eqb_eq in Ea. auto.
  - destruct (String.eqb s "MANUAL") eqn:Em; simpl; [|discriminate].
    intros H; inversion H; subst. apply String.eqb_eq in Em. auto.
Qed.

Lemma set_mode_mode (v : pyval) (s : t) :
  mode (snd (set_mode v s)) =
    match in_modes v with Some m => m | None => mode s end.
Proof.
  rewrite set_mode_eq. simpl.
  destruct (in_modes v) as [m|]; [|reflexivity].
  destruct (String.eqb m (mode s)) eqn:E; simpl; auto.
  apply String.eqb_eq in E. now subst.
Qed.

(** What the setter does with a truthy value, whatever the attribute
    name of the time test. *)
Lemma set_desiredTemp_manual attr now v (s : t) :
  truthy v = true ->
  set_desiredTemp_calling attr now v s =
    (Ok tt, with_desiredTemp v (snd (set_mode (VStr "MANUAL") s))).
Proof.
  intros Hv. unfold set_desiredTemp_calling. rewrite Hv.
  unfold bind. rewrite set_mode_eq. reflexivity.
Qed.

Section WithSensors.
Context {SC : SensorClass}.

Lemma run_all_keeps_desiredTemp (os : list op) (s : t) :
  forallb (fun o => negb (assigns_desiredTemp o)) os = true ->
  desiredTemp (run_all os s) = desiredTemp s.
Proof.
  revert s. induction os as [|o os IH]; intros s; simpl; auto.
  intros H. apply andb_true_iff in H as [Ho Hos].
  rewrite IH by assumption.
  apply (run_keeps_desiredTemp o). now destruct (assigns_desiredTemp o).
Qed.

(** C8: a truthy value given to the [desiredTemp] setter puts the
    thermostat in MANUAL mode and pins the target to that value; the
    schedule table plays no part, and the target stays at that value
    through every later operation other than a new assignment of
    [desiredTemp]. *)
Theorem set_desiredTemp_pins_target now (v : pyval) (th : t) :
  truthy v = true ->
  let th' := snd (set_desiredTemp now v th) in
  fst (set_desiredTemp now v th) = Ok tt
  /\ mode th' = "MANUAL"
  /\ desiredTemp th' = v
  /\ (forall settings,
        desiredTemp (snd (set_desiredTemp now v (with_tempSettings settings th)))
        = v
        /\ desiredTemp (with_tempSettings settings th') = v)
  /\ (forall os,
        forallb (fun o => negb (assigns_desiredTemp o)) os = true ->
        desiredTemp (run_all os th') = v).
Proof.
  intros Hv. unfold set_desiredTemp. cbv zeta.
  rewrite set_desiredTemp_manual by assumption. simpl.
  split; [reflexivity|]. split.
  { change (mode (snd (set_mode (VStr "MANUAL") th)) = "MANUAL").
    now rewrite set_mode_mode. }
  split; [reflexivity|]. split.
  - intros settings. rewrite set_desiredTemp_manual by assumption. auto.
  - intros os Hos. now rewrite run_all_keeps_desiredTemp.
Qed.

End WithSensors.

Lemma set_desiredTemp_pins_target_witness :
  truthy (VInt 72) = true
  /\ mode (snd (set_desiredTemp (at_time 1 7 0) (VInt 72) (fresh winter_table)))
     = "MANUAL"
  /\ desiredTemp (snd (set_desiredTemp (at_time 1 7 0) (VInt 72)
                                       (fresh winter_table))) = VInt 72.
Proof.
  split; [reflexivity|].
  pose proof (set_desiredTemp_pins_target (at_time 1 7 0) (VInt 72)
                (fresh winter_table) eq_refl) as H.
  cbv zeta in H. destruct H as (_ & Hm & Hd & _). split; assumption.
Defined.

Section ModeInvariant.
Context {SC : SensorClass}.

Lemma run_mode (o : op) (s : t) :
  mode (snd (run o s)) = mode s
  \/ mode (snd (run o s)) = "MANUAL"
  \/ mode (snd (run o s)) = "AUTO" /\ assigns_mode o = true.
Proof.
  destruct (assigns_mode o) eqn:Em; [|destruct (assigns_desiredTemp o) eqn:Ed].
  - destruct o; try discriminate. simpl. rewrite set_mode_mode.
    destruct (in_modes v) as [m|] eqn:Ev; auto.
    apply in_modes_Some in Ev as [_ [-> | ->]]; auto.
  - destruct o; try discriminate. simpl. unfold set_desiredTemp.
    destruct (truthy temp) eqn:Et.
    + right; left. rewrite set_desiredTemp_manual by assumption. simpl.
      change (mode (snd (set_mode (VStr "MANUAL") s)) = "MANUAL").
      now rewrite set_mode_mode.
    + left. now apply set_desiredTemp_auto_keeps_mode.
  - left. now apply (run_keeps_mode o).
Qed.

Lemma run_all_stays_MANUAL (os : list op) (s : t) :
  forallb (fun o => negb (assigns_mode o)) os = true ->
  mode s = "MANUAL" -> mode (run_all os s) = "MANUAL".
Proof.
  revert s. induction os as [|o os IH]; intros s; simpl; auto.
  intros H Hs. apply andb_true_iff in H as [Ho Hos].
  apply IH; auto.
  destruct (run_mode o s) as [E | [E | [_ E]]]; try congruence.
  rewrite E in Ho. discriminate.
Qed.

(** C10: the mode is "AUTO" on construction and is "AUTO" or "MANUAL" in
    every state the operations can reach; assigning a value that is not
    one of the two modes, or the mode the thermostat is in, changes
    nothing but the log, which gains one warning; and no operation
    other than an assignment to [mode] takes a thermostat out of MANUAL,
    whether it returns or raises. *)
Theorem mode_is_AUTO_or_MANUAL :
  (forall b sensors mqtt settings,
      mode (__init__ b sensors mqtt settings) = "AUTO")
  /\ (forall s, reachable s -> mode s = "AUTO" \/ mode s = "MANUAL")
  /\ (forall s v,
        in_modes v = None \/ v = VStr (mode s) ->
        set_mode v s
        = (Ok tt, with_LOGGER (fun l => l ++ [invalid_mode_warning v]) s))
  /\ (forall s os,
        forallb (fun o => negb (assigns_mode o)) os = true ->
        mode s = "MANUAL" -> mode (run_all os s) = "MANUAL").
Proof.
  split; [reflexivity|]. split; [|split].
  - intros s Hs. induction Hs as [| s o Hs IH]; [now left|].
    destruct (run_mode o s) as [E | [E | [E _]]]; rewrite E; auto.
  - intros s v Hv. rewrite set_mode_eq. f_equal.
    destruct Hv as [-> | ->]; [reflexivity|]. unfold in_modes.
    destruct (existsb (String.eqb (mode s)) modes); [|reflexivity].
    now rewrite String.eqb_refl.
  - intros s os. apply run_all_stays_MANUAL.
Qed.

End ModeInvariant.

Lemma mode_is_AUTO_or_MANUAL_witness :
  let th := snd (set_desiredTemp (at_time 1 7 0) (VInt 72) (fresh winter_table)) in
  reachable th
  /\ (mode th = "AUTO" \/ mode th = "MANUAL")
  /\ set_mode (VStr "ECO") th
     = (Ok tt,
        with_LOGGER (fun l => l ++ [invalid_mode_warning (VStr "ECO")]) th)
  /\ mode (run_all [SetDesiredTemp (at_time 1 7 0) VNone; Publish true;
                    SetOccupied (VList [])] th) = "MANUAL".
Proof.
  cbv zeta.
  assert (Hr : reachable (snd (set_desiredTemp (at_time 1 7 0) (VInt 72)
                                               (fresh winter_table)))).
  { apply (reachable_run _ (SetDesiredTemp (at_time 1 7 0) (VInt 72))).
    apply reachable_init. }
  destruct mode_is_AUTO_or_MANUAL as (_ & Hinv & Hrej & Hstay).
  split; [exact Hr|]. split; [exact (Hinv _ Hr)|]. split.
  - apply Hrej. left. reflexivity.
  - apply Hstay; reflexivity.
Defined.

(** *** AUTO recomputation and the schedule table *)

Lemma after_bind_keeps {S A B X} (f : S -> X) (c : M S A) (k : A -> M S B) s :
  (forall a, keeps f (k a)) ->
  f (snd (bind c k s)) = f (snd (c s)).
Proof.
  intros Hk. unfold bind. destruct (c s) as [[a|e] s']; simpl; auto.
  apply Hk.
Qed.

Lemma after_try_except_keeps {S A X} (f : S -> X) (body handler : M S A)
      catches s :
  keeps f handler ->
  f (snd (try_except body catches handler s)) = f (snd (body s)).
Proof.
  intros Hh. unfold try_except. destruct (body s) as [[a|e] s']; simpl; auto.
  destruct (catches e); simpl; auto.
Qed.

Lemma tempDict_eq key d sd (s : t) :
  tempSettings s = VDict d -> dict_get key d = Some sd ->
  tempDict key s = (Ok sd, s).
Proof.
  intros Hs Hd. unfold tempDict, bind, gets, lift.
  rewrite Hs. simpl. now rewrite Hd.
Qed.

Lemma tempDict_pop_present key k d sd v (s : t) :
  tempSettings s = VDict d -> dict_get key d = Some (VDict sd) ->
  dict_get k sd = Some v ->
  tempDict_pop key k s =
    (Ok v, with_tempSettings
             (VDict (dict_set key (VDict (dict_del k sd)) d)) s).
Proof.
  intros Hs Hd Hk. unfold tempDict_pop.
  rewrite (bind_ok _ _ _ _ _ (tempDict_eq key d _ s Hs Hd)).
  unfold bind, lift, gets, modify, ret. simpl. rewrite Hk, Hs. reflexivity.
Qed.

Lemma tempDict_pop_absent key k d sd (s : t) :
  tempSettings s = VDict d -> dict_get key d = Some (VDict sd) ->
  dict_get k sd = None ->
  tempDict_pop key k s = (Raise KeyError, s).
Proof.
  intros Hs Hd Hk. unfold tempDict_pop.
  rewrite (bind_ok _ _ _ _ _ (tempDict_eq key d _ s Hs Hd)).
  unfold bind, lift. simpl. now rewrite Hk.
Qed.

(** The season table after the two pops, whatever the rest of the call
    does. *)
Lemma auto_pops attr now key d sd v0 (s : t) :
  season_key now = Some key ->
  tempSettings s = VDict d -> dict_get key d = Some (VDict sd) ->
  dict_get "DEFAULT_TEMP" sd = Some v0 ->
  tempSettings (snd (set_desiredTemp_calling attr now VNone s)) =
    VDict (dict_set key
             (VDict (dict_del "OCCUPIED_SETTINGS" (dict_del "DEFAULT_TEMP" sd)))
             d).
Proof.
  intros Hk Hs Hd Hv. unfold set_desiredTemp_calling.
  change (truthy VNone) with false. cbv iota.
  rewrite after_try_except_keeps by op_keeps.
  rewrite Hk.
  rewrite (bind_ok _ _ _ _ _ (tempDict_eq key d _ s Hs Hd)).
  rewrite (bind_ok _ _ _ _ _ (tempDict_pop_present key _ d sd v0 s Hs Hd Hv)).
  set (s1 := with_tempSettings _ s).
  assert (Hs1 : tempSettings s1
                = VDict (dict_set key (VDict (dict_del "DEFAULT_TEMP" sd)) d))
    by reflexivity.
  assert (Hd1 : dict_get key (dict_set key (VDict (dict_del "DEFAULT_TEMP" sd)) d)
                = Some (VDict (dict_del "DEFAULT_TEMP" sd)))
    by apply dict_get_set_same.
  rewrite after_bind_keeps by (intros; op_keeps).
  rewrite after_try_except_keeps by op_keeps.
  rewrite after_bind_keeps by (intros; op_keeps).
  destruct (dict_get "OCCUPIED_SETTINGS" (dict_del "DEFAULT_TEMP" sd))
    as [occ|] eqn:Ho.
  - rewrite (tempDict_pop_present key _ _ _ occ s1 Hs1 Hd1 Ho). simpl.
    now rewrite dict_set_set.
  - rewrite (tempDict_pop_absent key _ _ _ s1 Hs1 Hd1 Ho). simpl.
    now rewrite (dict_del_absent _ _ Ho).
Qed.

(** With the season table present and no DEFAULT_TEMP in it, the AUTO
    branch ends in its KeyError handler. *)
Lemma auto_without_default attr now temp key d sd (s : t) :
  truthy temp = false ->
  season_key now = Some key ->
  tempSettings s = VDict d -> dict_get key d = Some (VDict sd) ->
  dict_get "DEFAULT_TEMP" sd = None ->
  set_desiredTemp_calling attr now temp s =
    (Ok tt,
     with_desiredTemp temp
       (with_LOGGER (fun l => l ++ [no_modifications_info]) s)).
Proof.
  intros Ht Hk Hs Hd Hv. unfold set_desiredTemp_calling.
  rewrite Ht, Hk. unfold try_except.
  rewrite (bind_ok _ _ _ _ _ (tempDict_eq key d _ s Hs Hd)).
  rewrite (bind_raise _ _ _ _ _ (tempDict_pop_absent key _ d sd s Hs Hd Hv)).
  reflexivity.
Qed.

(** C9: an AUTO recomputation in a season whose table has a DEFAULT_TEMP
    removes DEFAULT_TEMP and OCCUPIED_SETTINGS from that table in the
    thermostat's schedule, whether the call returns or raises; a second
    AUTO recomputation in the same season then finds no DEFAULT_TEMP,
    logs "No temp modifications" and leaves the target unset. *)
Theorem auto_recompute_consumes_schedule now now' key d sd v0 (th : t) :
  season_key now = Some key ->
  season_key now' = Some key ->
  tempSettings th = VDict d ->
  dict_get key d = Some (VDict sd) ->
  dict_get "DEFAULT_TEMP" sd = Some v0 ->
  let th1 := snd (set_desiredTemp now VNone th) in
  let sd1 := dict_del "OCCUPIED_SETTINGS" (dict_del "DEFAULT_TEMP" sd) in
  tempSettings th1 = VDict (dict_set key (VDict sd1) d)
  /\ tempDict key th1 = (Ok (VDict sd1), th1)
  /\ dict_get "DEFAULT_TEMP" sd1 = None
  /\ dict_get "OCCUPIED_SETTINGS" sd1 = None
  /\ set_desiredTemp now' VNone th1 =
       (Ok tt,
        with_desiredTemp VNone
          (with_LOGGER (fun l => l ++ [no_modifications_info]) th1))
  /\ desiredTemp (snd (set_desiredTemp now' VNone th1)) = VNone.
Proof.
  intros Hk Hk' Hs Hd Hv. cbv zeta. unfold set_desiredTemp.
  pose proof (auto_pops "getbetweenTime" now key d sd v0 th Hk Hs Hd Hv) as H1.
  set (th1 := snd (set_desiredTemp_calling "getbetweenTime" now VNone th)) in *.
  set (sd1 := dict_del "OCCUPIED_SETTINGS" (dict_del "DEFAULT_TEMP" sd)) in *.
  assert (Hd1 : dict_get key (dict_set key (VDict sd1) d) = Some (VDict sd1))
    by apply dict_get_set_same.
  assert (Hv1 : dict_get "DEFAULT_TEMP" sd1 = None).
  { apply dict_get_del_none, dict_get_del_same. }
  assert (E2 := auto_without_default "getbetweenTime" now' VNone key _ sd1 th1
                  eq_refl Hk' H1 Hd1 Hv1).
  split; [exact H1|]. split; [now apply (tempDict_eq key _ _ th1 H1)|].
  split; [exact Hv1|]. split; [apply dict_get_del_same|].
  split; [exact E2|]. now rewrite E2.
Qed.

Lemma auto_recompute_consumes_schedule_witness :
  let th := snd (set_occupied (VList []) (fresh winter_table)) in
  let th1 := snd (set_desiredTemp (at_time 1 7 0) VNone th) in
  tempSettings th1
  = VDict [("WINTER",
            VDict [("NIGHT",
                    VDict [("setback",
                            VList [VStr "0"; VStr "0"; VInt (-2)])])])]
  /\ desiredTemp (snd (set_desiredTemp (at_time 2 9 30) VNone th1)) = VNone.
Proof.
  cbv zeta.
  destruct (auto_recompute_consumes_schedule
              (at_time 1 7 0) (at_time 2 9 30) "WINTER"
              [("WINTER",
                VDict [("DEFAULT_TEMP", VInt 68);
                       ("OCCUPIED_SETTINGS",
                        VDict [("HOME", VList []);
                               ("AWAY", VList [VList [VStr "0"; VStr "0";
                                                      VInt (-3)]])]);
                       ("NIGHT",
                        VDict [("setback", VList [VStr "0"; VStr "0";
                                                  VInt (-2)])])])]
              [("DEFAULT_TEMP", VInt 68);
               ("OCCUPIED_SETTINGS",
                VDict [("HOME", VList []);
                       ("AWAY", VList [VList [VStr "0"; VStr "0";
                                              VInt (-3)]])]);
               ("NIGHT",
                VDict [("setback", VList [VStr "0"; VStr "0"; VInt (-2)])])]
              (VInt 68)
              (snd (set_occupied (VList []) (fresh winter_table)))
              eq_refl eq_refl eq_refl eq_refl eq_refl)
    as (H1 & _ & _ & _ & _ & H6).
  split; [exact H1 | exact H6].
Defined.

(** *** The time window *)




(** Outside that domain: a non-zero time of one or two digits has an
    empty minute part, on which [int] raises. *)
Lemma getBetweenTime_short_time_raises :
  getBetweenTime (at_time 1 7 0) (VList [VStr "6"; VStr "9"])
  = Raise ValueError.
Proof. reflexivity. Qed.


(** *** The schedule-driven target *)

(** With the time test looked up under the name the class defines, the
    example of the spec gives 68 - 2 - 3. *)
Lemma auto_target_example_intended :
  let th := snd (set_occupied (VList []) (fresh winter_table)) in
  let r := set_desiredTemp_calling "getBetweenTime" (at_time 1 7 0) VNone th in
  fst r = Ok tt /\ desiredTemp (snd r) = VInt 63.
Proof. split; reflexivity. Qed.

(** C1, on the code: in winter, with DEFAULT_TEMP 68, an always-on
    modifier of -2, nobody home and an always-on AWAY modifier of -3, the
    AUTO recomputation raises AttributeError at the first modifier, since
    it looks up [getbetweenTime], which the class does not define; the
    target stays unset instead of becoming 63. *)
Theorem auto_target_example_raises :
  let th := snd (set_occupied (VList []) (fresh winter_table)) in
  let r := set_desiredTemp (at_time 1 7 0) VNone th in
  occupied th = Some false
  /\ is_ok (time_method "getbetweenTime") = false
  /\ fst r = Raise AttributeError
  /\ desiredTemp (snd r) = VNone.
Proof. repeat split. Qed.

(** C2, on the code: the month tests select a season for every month;
    the shoulder months 4, 5, 6 and 10 select SUMMER, so that in April a
    table with a SUMMER base of 75 gives the target 75, not an unset
    one. *)
Theorem shoulder_months_select_SUMMER :
  (forall now,
      season_key now = Some "WINTER" \/ season_key now = Some "SUMMER")
  /\ season_key (at_time 4 12 0) = Some "SUMMER"
  /\ season_key (at_time 5 12 0) = Some "SUMMER"
  /\ season_key (at_time 6 12 0) = Some "SUMMER"
  /\ season_key (at_time 10 12 0) = Some "SUMMER"
  /\ set_desiredTemp (at_time 4 12 0) VNone (fresh summer_table)
     = (Ok tt,
        with_desiredTemp (VInt 75)
          (with_tempSettings (VDict [("SUMMER", VDict [])])
                             (fresh summer_table))).
Proof.
  split; [|repeat split].
  intros now. unfold season_key.
  destruct ((11 <=? month now) || (month now <=? 3)) eqn:W; [now left|].
  destruct ((7 <=? month now) || (month now <=? 9)) eqn:S; [now right|].
  apply orb_false_iff in S as [S1 S2].
  apply Z.leb_gt in S1, S2. lia.
Qed.

(** *** Readings *)

Section Failures.
Context {SC : SensorClass}.

(** C5, on the code: exceptions do reach the caller.  Reading a group
    that was created and has no member raises ZeroDivisionError;
    publishing with MQTT configured and a sensor registered raises
    TypeError at [join]; an AUTO recomputation on a thermostat built
    without a schedule table raises TypeError. *)
Theorem exceptions_reach_the_caller :
  fst (getTemp "kitchen" "F"
         (snd (createSensorGroup "kitchen" (fresh VNone))))
  = Raise ZeroDivisionError
  /\ fst (publish true
            (snd (addSensor 0%nat
                    (__init__ idle_board (fun _ => kitchen)
                              mqtt_settings VNone))))
     = Raise TypeError
  /\ fst (set_desiredTemp (at_time 1 7 0) VNone (fresh VNone))
     = Raise TypeError.
Proof. repeat split. Qed.

(** C6, on the code: with the sensor named "Kitchen" registered and no
    group, [getTemp] finds nothing under "kitchen", "Kitchen" or
    "KITCHEN": it logs the warning and returns None, because the query
    is upper-cased and the sensor's name is compared as it is. *)
Theorem getTemp_misses_mixed_case_name :
  let th := snd (addSensor 0%nat (fresh VNone)) in
  tempSensors th = [0%nat]
  /\ name (heap th 0%nat) = "Kitchen"
  /\ fst (getTemp "kitchen" "F" th) = Ok None
  /\ fst (getTemp "Kitchen" "F" th) = Ok None
  /\ fst (getTemp "KITCHEN" "C" th) = Ok None
  /\ map is_warning (skipn 1 (LOGGER (snd (getTemp "kitchen" "F" th))))
     = [true].
Proof. repeat split. Qed.

End Failures.

Lemma upper_ascii_idempotent (c : ascii) :
  upper_ascii (upper_ascii c) = upper_ascii c.
Proof. destruct c as [[] [] [] [] [] [] [] []]; reflexivity. Qed.

Lemma upper_idempotent (s : string) : upper (upper s) = upper s.
Proof.
  unfold upper. induction s as [|c r IH]; simpl; auto.
  now rewrite upper_ascii_idempotent, IH.
Qed.

(** The name test of [getTemp] can only succeed for a sensor whose name
    is already in upper case. *)
Lemma name_test_needs_upper_name (area sensor_name : string) :
  String.eqb (upper area) sensor_name = true ->
  upper sensor_name = sensor_name.
Proof.
  intros H. apply String.eqb_eq in H. subst. apply upper_idempotent.
Qed.

End ThermostatSpec.

(* ================================================================= *)
(** ** The sensor registry: invariants and edge cases *)

Module RegistrySpec.
Import Py PyFacts Pymata Logging Thermostat ThermostatFrames Registry Examples.
#[local] Open Scope py_scope.

(** *** Dicts as association lists *)

Lemma dict_get_In {V} (k : string) (v : V) (d : list (string * V)) :
  dict_get k d = Some v -> In (k, v) d.
Proof.
  induction d as [|[k0 v0] d IH]; simpl; [discriminate|].
  destruct (String.eqb k k0) eqn:E.
  - intros H; inversion H; subst. apply String.eqb_eq in E. subst. now left.
  - intros H. right. auto.
Qed.

Lemma dict_get_None_keys {V} (k : string) (d : list (string * V)) :
  dict_get k d = None <-> ~ In k (map fst d).
Proof.
  induction d as [|[k0 v0] d IH]; simpl.
  - split; auto.
  - destruct (String.eqb k k0) eqn:E.
    + apply String.eqb_eq in E. subst. split; [discriminate|].
      intros H. exfalso. apply H. now left.
    + apply String.eqb_neq in E. rewrite IH. split.
      * intros H [H1|H1]; [congruence | auto].
      * intros H H1. apply H. now right.
Qed.

Lemma dict_set_In {V} (k : string) (v : V) (d : list (string * V)) x :
  In x (dict_set k v d) -> In x d \/ x = (k, v).
Proof.
  induction d as [|[k0 v0] d IH]; simpl.
  - intros [H|[]]; auto.
  - destruct (String.eqb k k0) eqn:E; simpl.
    + apply String.eqb_eq in E. subst. intros [H|H]; auto.
    + intros [H|H]; auto. destruct (IH H); auto.
Qed.

Lemma dict_set_keys_present {V} (k : string) (v v0 : V) (d : list (string * V)) :
  dict_get k d = Some v0 -> map fst (dict_set k v d) = map fst d.
Proof.
  induction d as [|[k1 v1] d IH]; simpl; [discriminate|].
  destruct (String.eqb k k1) eqn:E; simpl; auto.
  intros H. f_equal. auto.
Qed.

Lemma dict_set_keys_absent {V} (k : string) (v : V) (d : list (string * V)) :
  dict_get k d = None -> dict_set k v d = d ++ [(k, v)].
Proof.
  induction d as [|[k1 v1] d IH]; simpl; auto.
  destruct (String.eqb k k1) eqn:E; [discriminate|].
  intros H. f_equal. auto.
Qed.

Lemma dict_get_set_other {V} (k k' : string) (v : V) (d : list (string * V)) :
  k' <> k -> dict_get k' (dict_set k v d) = dict_get k' d.
Proof.
  intros Hne. induction d as [|[k1 v1] d IH]; simpl.
  - apply String.eqb_neq in Hne. now rewrite Hne.
  - destruct (String.eqb k k1) eqn:E; simpl.
    + apply String.eqb_eq in E. subst.
      apply String.eqb_neq in Hne. now rewrite Hne.
    + now rewrite IH.
Qed.

Lemma sensor_in_In (r : ref) (l : list ref) :
  sensor_in r l = true <-> In r l.
Proof.
  unfold sensor_in. rewrite existsb_exists. split.
  - intros (x & Hx & E). apply Nat.eqb_eq in E. now subst.
  - intros H. exists r. split; auto. apply Nat.eqb_refl.
Qed.

Lemma sensor_in_not_In (r : ref) (l : list ref) :
  sensor_in r l = false <-> ~ In r l.
Proof.
  rewrite <- sensor_in_In. destruct (sensor_in r l); split; congruence.
Qed.

(** *** What the three registry operations do to the registry *)

Lemma addSensor_registry (r : ref) (s : t) :
  tempSensors (snd (addSensor r s)) =
    (if sensor_in r (tempSensors s) then tempSensors s
     else tempSensors s ++ [r])
  /\ groups (snd (addSensor r s)) = groups s.
Proof.
  unfold addSensor, bind, gets, modify, log, ret. simpl.
  destruct (sensor_in r (tempSensors s)); simpl; auto.
Qed.

Lemma createSensorGroup_registry (g : string) (s : t) :
  tempSensors (snd (createSensorGroup g s)) = tempSensors s
  /\ groups (snd (createSensorGroup g s)) =
       match dict_get (upper g) (groups s) with
       | Some _ => groups s
       | None => groups s ++ [(upper g, [])]
       end.
Proof.
  unfold createSensorGroup, bind, gets, modify, log, ret, dict_has. simpl.
  destruct (dict_get (upper g) (groups s)) eqn:E; simpl; auto.
  split; auto. now apply dict_set_keys_absent.
Qed.

Lemma addSensorToGroup_registry (r : ref) (g : string) (s : t) :
  tempSensors (snd (addSensorToGroup r g s)) = tempSensors s
  /\ groups (snd (addSensorToGroup r g s)) =
       match dict_get g (groups s) with
       | Some members =>
           if sensor_in r (tempSensors s) && negb (sensor_in r members)
           then dict_set g (members ++ [r]) (groups s)
           else groups s
       | None => groups s
       end.
Proof.
  unfold addSensorToGroup, bind, gets, modify, log, ret. simpl.
  destruct (dict_get g (groups s)) as [m|]; simpl; auto.
  destruct (sensor_in r (tempSensors s)); simpl; auto.
  destruct (sensor_in r m); simpl; auto.
Qed.

Section WithSensors.
Context {SC : SensorClass}.

Lemma run_keeps_registry (o : op) :
  touches_registry o = false ->
  keeps tempSensors (run o) /\ keeps groups (run o).
Proof.
  destruct o; simpl; try discriminate; intros _;
    unfold set_desiredTemp, set_desiredTemp_calling, set_mode;
    split; op_keeps.
Qed.

Lemma run_members_ok (o : op) (s : t) :
  members_ok s -> members_ok (snd (run o s)).
Proof.
  intros [Hn Hg]. destruct (touches_registry o) eqn:Ht.
  - destruct o; try discriminate; simpl; unfold members_ok.
    + destruct (addSensor_registry sensor s) as [-> ->].
      destruct (sensor_in sensor (tempSensors s)) eqn:E; [now split|].
      apply sensor_in_not_In in E. split.
      * apply NoDup_app; [assumption | repeat constructor; auto |].
        intros x Hx [<- | []]. contradiction.
      * eapply Forall_impl; [|exact Hg]. intros g [H1 H2]. split; auto.
        intros x Hx. apply in_or_app. left. auto.
    + destruct (createSensorGroup_registry groupName s) as [-> ->].
      split; auto. destruct (dict_get (upper groupName) (groups s)); auto.
      apply Forall_app. split; auto. constructor; [|constructor].
      simpl. split; [constructor | intros x []].
    + destruct (addSensorToGroup_registry sensor group s) as [-> ->].
      split; auto. destruct (dict_get group (groups s)) as [m|] eqn:Eg; auto.
      destruct (sensor_in sensor (tempSensors s)) eqn:Er; simpl; auto.
      destruct (sensor_in sensor m) eqn:Em; simpl; auto.
      apply sensor_in_In in Er. apply sensor_in_not_In in Em.
      rewrite Forall_forall in Hg. apply Forall_forall. intros x Hx.
      apply dict_set_In in Hx as [Hx | ->]; [auto|]. simpl.
      destruct (Hg _ (dict_get_In _ _ _ Eg)) as [H1 H2]. simpl in *. split.
      * apply NoDup_app; [assumption | repeat constructor; auto |].
        intros y Hy [<- | []]. contradiction.
      * intros y Hy. apply in_app_or in Hy as [Hy | [<- | []]]; auto.
  - destruct (run_keeps_registry o Ht) as [Hs Hgs].
    unfold members_ok. now rewrite (Hs s), (Hgs s).
Qed.

Lemma upper_upper (g : string) : upper (upper g) = upper g.
Proof.
  unfold upper. induction g as [|c r IH]; simpl; auto.
  rewrite IH. f_equal.
  destruct c as [[] [] [] [] [] [] [] []]; reflexivity.
Qed.

Lemma run_names_ok (o : op) (s : t) :
  names_ok s -> names_ok (snd (run o s)).
Proof.
  intros [Hn Hu]. destruct (touches_registry o) eqn:Ht.
  - destruct o; try discriminate; simpl; unfold names_ok.
    + destruct (addSensor_registry sensor s) as [_ ->]. now split.
    + destruct (createSensorGroup_registry groupName s) as [_ ->].
      destruct (dict_get (upper groupName) (groups s)) eqn:E; [now split|].
      apply dict_get_None_keys in E. split.
      * rewrite map_app. simpl. apply NoDup_app; [assumption | repeat constructor; auto |].
        intros x Hx [<- | []]. contradiction.
      * apply Forall_app. split; auto. constructor; [|constructor].
        simpl. apply upper_upper.
    + destruct (addSensorToGroup_registry sensor group s) as [_ ->].
      destruct (dict_get group (groups s)) as [m|] eqn:Eg; [|now split].
      destruct (sensor_in sensor (tempSensors s) && negb (sensor_in sensor m));
        [|now split].
      split.
      * now rewrite (dict_set_keys_present _ _ _ _ Eg).
      * rewrite Forall_forall in Hu. apply Forall_forall. intros x Hx.
        apply dict_set_In in Hx as [Hx | ->]; [auto|]. simpl.
        apply (Hu _ (dict_get_In _ _ _ Eg)).
  - destruct (run_keeps_registry o Ht) as [_ Hgs].
    unfold names_ok. now rewrite (Hgs s).
Qed.

Lemma reachable_names_ok (s : t) : reachable s -> names_ok s.
Proof.
  induction 1 as [| s o Hs IH].
  - split; constructor.
  - now apply run_names_ok.
Qed.

(** X1: however a thermostat is used, no sensor is registered twice,
    and every group lists each of its members once and lists only
    registered sensors. *)
Theorem registry_members_invariant (s : t) :
  reachable s -> members_ok s.
Proof.
  induction 1 as [| s o Hs IH].
  - split; constructor.
  - now apply run_members_ok.
Qed.

(** X2: however a thermostat is used, its group names are distinct and
    each is stored in upper case. *)
Theorem registry_names_invariant (s : t) :
  reachable s -> names_ok s.
Proof. apply reachable_names_ok. Qed.

End WithSensors.

Lemma run_all_reachable {SC : SensorClass} (os : list op) (s : t) :
  reachable s -> reachable (run_all os s).
Proof.
  revert s. induction os as [|o os IH]; intros s Hs; simpl; auto.
  apply IH. now apply reachable_run.
Qed.

Lemma house_reachable : reachable house.
Proof. apply run_all_reachable, reachable_init. Qed.

Lemma registry_members_invariant_witness :
  reachable house /\ members_ok house.
Proof.
  split; [exact house_reachable|].
  exact (registry_members_invariant house house_reachable).
Defined.

Lemma registry_names_invariant_witness :
  reachable house /\ names_ok house.
Proof.
  split; [exact house_reachable|].
  exact (registry_names_invariant house house_reachable).
Defined.

(** *** Group names and membership *)

Lemma dict_get_key_In {V} (k : string) (v : V) (d : list (string * V)) :
  dict_get k d = Some v -> In k (map fst d).
Proof.
  intros H. apply dict_get_In in H. now apply (in_map fst) in H.
Qed.

Lemma addSensorToGroup_no_group (r : ref) (g : string) (s : t) :
  dict_get g (groups s) = None ->
  addSensorToGroup r g s =
    (Ok tt, with_LOGGER (fun l => l ++ [no_group_warning g]) s).
Proof.
  intros H. unfold addSensorToGroup, bind, gets, log, modify. simpl.
  now rewrite H.
Qed.

(** X3: [addSensorToGroup] looks the group up under the name as given,
    while [createSensorGroup] stores names in upper case: on any
    thermostat, a group name that is not already in upper case names no
    group, and the call only logs the "does not exist" warning, also
    right after [createSensorGroup] was given that same name. *)
Theorem addSensorToGroup_needs_upper_name {SC : SensorClass}
        (s : t) (r : ref) (g : string) :
  reachable s -> upper g <> g ->
  addSensorToGroup r g s =
    (Ok tt, with_LOGGER (fun l => l ++ [no_group_warning g]) s)
  /\ addSensorToGroup r g (snd (createSensorGroup g s)) =
       (Ok tt, with_LOGGER (fun l => l ++ [no_group_warning g])
                           (snd (createSensorGroup g s))).
Proof.
  intros Hs Hg.
  assert (H : forall s', reachable s' -> dict_get g (groups s') = None).
  { intros s' Hs'. destruct (dict_get g (groups s')) as [m|] eqn:E; auto.
    destruct (reachable_names_ok s' Hs') as [_ Hu].
    rewrite Forall_forall in Hu.
    specialize (Hu _ (dict_get_In _ _ _ E)). simpl in Hu. contradiction. }
  split; apply addSensorToGroup_no_group, H; auto.
  apply (reachable_run s (CreateSensorGroup g) Hs).
Qed.

Lemma addSensorToGroup_needs_upper_name_witness :
  reachable house
  /\ addSensorToGroup 0%nat "house" (snd (createSensorGroup "house" house)) =
       (Ok tt, with_LOGGER (fun l => l ++ [no_group_warning "house"])
                           (snd (createSensorGroup "house" house))).
Proof.
  split; [exact house_reachable|].
  apply (addSensorToGroup_needs_upper_name house 0%nat "house"
           house_reachable).
  discriminate.
Defined.

(** X4: for names of ASCII characters, creating a group whose name, up
    to letter case, is already there changes nothing: after
    [createSensorGroup g], a further [createSensorGroup g'] with the same
    upper-cased name is a no-op, the group keeps the members it had, and
    no other group is touched. *)
Theorem createSensorGroup_idempotent (s : t) (g g' : string) :
  is_ascii g = true -> is_ascii g' = true ->
  upper g' = upper g ->
  let s1 := snd (createSensorGroup g s) in
  createSensorGroup g' s1 = (Ok tt, s1)
  /\ dict_get (upper g) (groups s1) =
       Some (match dict_get (upper g) (groups s) with
             | Some members => members
             | None => []
             end)
  /\ (forall k, k <> upper g -> dict_get k (groups s1) = dict_get k (groups s)).
Proof.
  intros _ _ Hg. cbv zeta.
  assert (H1 : dict_get (upper g) (groups (snd (createSensorGroup g s))) =
               Some (match dict_get (upper g) (groups s) with
                     | Some members => members
                     | None => []
                     end)).
  { unfold createSensorGroup, bind, gets, modify, log, ret, dict_has. simpl.
    destruct (dict_get (upper g) (groups s)) eqn:E; simpl; auto.
    apply dict_get_set_same. }
  split; [|split]; auto.
  - unfold createSensorGroup at 1. unfold bind, gets, dict_has. simpl.
    rewrite Hg, H1. reflexivity.
  - intros k Hk.
    unfold createSensorGroup, bind, gets, modify, log, ret, dict_has. simpl.
    destruct (dict_get (upper g) (groups s)) eqn:E; simpl; auto.
    now apply dict_get_set_other.
Qed.

Lemma createSensorGroup_idempotent_witness :
  is_ascii "house" = true /\ is_ascii "House" = true
  /\ createSensorGroup "House" (snd (createSensorGroup "house" house))
     = (Ok tt, snd (createSensorGroup "house" house))
  /\ dict_get "HOUSE" (groups (snd (createSensorGroup "house" house)))
     = Some [0%nat; 1%nat; 2%nat].
Proof.
  destruct (createSensorGroup_idempotent house "house" "House"
              eq_refl eq_refl eq_refl) as (H1 & H2 & _).
  split; [reflexivity|]. split; [reflexivity|].
  split; [exact H1 | exact H2].
Defined.

(** X5: [addSensorToGroup] on an existing group appends the sensor to
    that group exactly when the sensor is registered and not yet a
    member, and otherwise leaves the group as it is; no other group
    changes; an unregistered sensor only produces the warning; and
    repeating the call changes no group. *)
Theorem addSensorToGroup_membership (s : t) (r : ref) (g : string)
        (members : list ref) :
  dict_get g (groups s) = Some members ->
  let s1 := snd (addSensorToGroup r g s) in
  fst (addSensorToGroup r g s) = Ok tt
  /\ dict_get g (groups s1) =
       Some (if sensor_in r (tempSensors s) && negb (sensor_in r members)
             then members ++ [r] else members)
  /\ (forall k, k <> g -> dict_get k (groups s1) = dict_get k (groups s))
  /\ tempSensors s1 = tempSensors s
  /\ (sensor_in r (tempSensors s) = false ->
      s1 = with_LOGGER
             (fun l => l ++ [not_registered_warning (name (heap s r))]) s)
  /\ groups (snd (addSensorToGroup r g s1)) = groups s1.
Proof.
  intros Hg. cbv zeta.
  destruct (addSensorToGroup_registry r g s) as [Ht Hgs].
  rewrite Hg in Hgs.
  assert (Hget : dict_get g (groups (snd (addSensorToGroup r g s))) =
                 Some (if sensor_in r (tempSensors s)
                          && negb (sensor_in r members)
                       then members ++ [r] else members)).
  { rewrite Hgs.
    destruct (sensor_in r (tempSensors s) && negb (sensor_in r members));
      auto using dict_get_set_same. }
  split; [|split; [|split; [|split; [|split]]]]; auto.
  - unfold addSensorToGroup, bind, gets, modify, log, ret. simpl.
    rewrite Hg. destruct (sensor_in r (tempSensors s)); simpl; auto.
    destruct (sensor_in r members); reflexivity.
  - intros k Hk. rewrite Hgs.
    destruct (sensor_in r (tempSensors s) && negb (sensor_in r members));
      auto using dict_get_set_other.
  - intros Hr. unfold addSensorToGroup, bind, gets, modify, log, ret. simpl.
    rewrite Hg, Hr. reflexivity.
  - destruct (addSensorToGroup_registry r g (snd (addSensorToGroup r g s)))
      as [_ ->].
    rewrite Hget, Ht.
    destruct (sensor_in r (tempSensors s)) eqn:Er; simpl; auto.
    destruct (sensor_in r members) eqn:Em; simpl.
    + now rewrite Em.
    + assert (Hin : sensor_in r (members ++ [r]) = true).
      { apply sensor_in_In, in_or_app. right. now left. }
      now rewrite Hin.
Qed.

Lemma addSensorToGroup_membership_witness :
  dict_get "HOUSE" (groups house) = Some [0%nat; 1%nat; 2%nat]
  /\ dict_get "HOUSE" (groups (snd (addSensorToGroup 7%nat "HOUSE" house)))
     = Some [0%nat; 1%nat; 2%nat]
  /\ tempSensors (snd (addSensorToGroup 7%nat "HOUSE" house))
     = [0%nat; 1%nat; 2%nat].
Proof.
  split; [reflexivity|].
  destruct (addSensorToGroup_membership house 7%nat "HOUSE"
              [0%nat; 1%nat; 2%nat] eq_refl) as (_ & H2 & _ & H4 & _).
  split; [exact H2 | exact H4].
Defined.

(** *** Polling the sensors *)

Lemma set_tempC_twice (v v' : Z) (o : Sensor) :
  set_tempC v' (set_tempC v o) = set_tempC v' o.
Proof. reflexivity. Qed.

Lemma updateSensors_loop (l : list ref) (s : t) :
  let body := fun sensor : ref =>
    (obj <- gets (fun s => heap s sensor) ;;
     b <- gets board ;;
     let '(v, b') := analog_read (controlPin obj) b in
     modify (with_board (fun _ => b')) ;;
     modify (with_heap (heap_set sensor (set_tempC v obj))) ;;
     log DEBUG "Updated sensor {}" [AStr (name obj)]) in
  let s' := snd (for_each l body s) in
  fst (for_each l body s) = Ok tt
  /\ (forall r, heap s' r =
        if sensor_in r l
        then set_tempC (analog_in (board s) (controlPin (heap s r))) (heap s r)
        else heap s r)
  /\ trace (board s') =
       trace (board s) ++ map (fun r => AnalogRead (controlPin (heap s r))) l
  /\ analog_in (board s') = analog_in (board s).
Proof.
  cbv zeta. revert s. induction l as [|x l IH]; intros s.
  - simpl. repeat split. now rewrite app_nil_r.
  - set (s1 := with_LOGGER
                 (fun l0 => l0 ++ [{| level := DEBUG;
                                      msg := "Updated sensor {}";
                                      args := [AStr (name (heap s x))] |}])
                 (with_heap (heap_set x
                               (set_tempC (analog_in (board s)
                                             (controlPin (heap s x)))
                                          (heap s x)))
                    (with_board (fun _ => emit (AnalogRead
                                                  (controlPin (heap s x)))
                                               (board s)) s))).
    match goal with
    | |- context [for_each (x :: l) ?body s] =>
        change (for_each (x :: l) body s) with (for_each l body s1)
    end.
    destruct (IH s1) as (H1 & H2 & H3 & H4).
    assert (Hpin : forall r, controlPin (heap s1 r) = controlPin (heap s r)).
    { intros r. simpl. unfold heap_set. now destruct (Nat.eqb r x) eqn:E;
        [apply Nat.eqb_eq in E; subst|]. }
    split; [exact H1|]. split; [|split].
    + intros r. rewrite H2. simpl sensor_in. rewrite Hpin.
      change (analog_in (board s1)) with (analog_in (board s)).
      change (heap s1 r) with (heap_set x
                                 (set_tempC (analog_in (board s)
                                               (controlPin (heap s x)))
                                            (heap s x)) (heap s) r).
      unfold heap_set. unfold sensor_in. simpl.
      destruct (Nat.eqb r x) eqn:E; simpl.
      * apply Nat.eqb_eq in E. subst.
        now destruct (existsb (Nat.eqb x) l).
      * reflexivity.
    + rewrite H3.
      change (trace (board s1))
        with (trace (board s) ++ [AnalogRead (controlPin (heap s x))]).
      rewrite <- app_assoc. cbn [app map]. do 2 f_equal.
      apply map_ext. intros r. f_equal. apply Hpin.
    + rewrite H4. reflexivity.
Qed.

(** X6: [updateSensors] reads the control pin of every registered
    sensor once, in registration order, and stores the value read in
    that sensor; names and pins stay as they are, sensors that are not
    registered are not touched, the registry and the groups are
    unchanged, and the call returns normally. *)
Theorem updateSensors_reads_every_sensor (s : t) :
  let s' := snd (updateSensors s) in
  fst (updateSensors s) = Ok tt
  /\ (forall r, heap s' r =
        if sensor_in r (tempSensors s)
        then set_tempC (analog_in (board s) (controlPin (heap s r))) (heap s r)
        else heap s r)
  /\ trace (board s') =
       trace (board s)
       ++ map (fun r => AnalogRead (controlPin (heap s r))) (tempSensors s)
  /\ tempSensors s' = tempSensors s
  /\ groups s' = groups s.
Proof.
  cbv zeta.
  destruct (updateSensors_loop (tempSensors s) s) as (H1 & H2 & H3 & _).
  unfold updateSensors. unfold bind at 1. unfold gets at 1. cbv iota beta.
  split; [exact H1|]. split; [exact H2|]. split; [exact H3|].
  split; [apply (keeps_for_each tempSensors) | apply (keeps_for_each groups)];
    intros; op_keeps.
Qed.

(** *** Reading a group or a sensor *)

Section Readings.
Context {SC : SensorClass}.

(** The sum of the members' readings, in the order of the group. *)
Lemma sum_loop (fmt : string) (members : list ref) (acc : float) (s : t) :
  fold_each members acc
    (fun temp sensor =>
       obj <- gets (fun s => heap s sensor) ;;
       ret (PrimFloat.add temp (reading fmt obj))) s
  = (Ok (fold_left (fun temp r => PrimFloat.add temp (reading fmt (heap s r)))
                   members acc), s).
Proof.
  revert acc. induction members as [|x l IH]; intros acc; simpl; auto.
  unfold bind at 1. unfold bind at 1. unfold gets, ret. simpl. apply IH.
Qed.

Lemma getTemp_group_eq (s : t) (area fmt : string) (members : list ref) :
  dict_get (upper area) (groups s) = Some members ->
  getTemp area fmt s =
    match members with
    | [] => (Raise ZeroDivisionError, s)
    | _ :: _ =>
        let total := fold_left
                       (fun temp r => PrimFloat.add temp (reading fmt (heap s r)))
                       members PrimFloat.zero in
        let mean := PrimFloat.div total
                                  (float_of_len (List.length members)) in
        (Ok (Some mean),
         with_LOGGER (fun l => l ++ [group_temp_debug area mean]) s)
    end.
Proof.
  intros Hg. unfold getTemp. unfold bind at 1. unfold gets at 1.
  cbv iota beta. rewrite Hg.
  unfold bind at 1. rewrite sum_loop.
  unfold bind, gets, lift, raise, ret, log, modify. simpl. rewrite Hg.
  destruct members; reflexivity.
Qed.

(** X7: for an area of ASCII characters that names a group (up to
    letter case), [getTemp] adds the members' readings in the requested
    unit as floats, in the order of the group and starting from 0.0,
    divides the sum by the number of members as a float, returns and
    logs that rounded quotient, and changes nothing else; a sensor of
    the same name is not looked at.  On a group without members it
    raises ZeroDivisionError and leaves the state as it was. *)
Theorem getTemp_group_mean (s : t) (area fmt : string) (members : list ref) :
  is_ascii area = true ->
  dict_get (upper area) (groups s) = Some members ->
  getTemp area fmt s =
    match members with
    | [] => (Raise ZeroDivisionError, s)
    | _ :: _ =>
        let total := fold_left
                       (fun temp r => PrimFloat.add temp (reading fmt (heap s r)))
                       members PrimFloat.zero in
        let mean := PrimFloat.div total
                                  (float_of_len (List.length members)) in
        (Ok (Some mean),
         with_LOGGER (fun l => l ++ [group_temp_debug area mean]) s)
    end.
Proof. intros _. apply getTemp_group_eq. Qed.

(** The scan of the registered sensors for a name. *)
Lemma name_loop (area fmt : string) (l : list ref) (s : t) :
  for_each_return l
    (fun sensor =>
       obj <- gets (fun s => heap s sensor) ;;
       if String.eqb (upper area) (name obj) then
         let temp := reading fmt obj in
         log DEBUG "Sensor {}: {}" [AStr area; AFloat temp] ;;
         ret (Some temp)
       else ret None) s
  = match find (fun r => String.eqb (upper area) (name (heap s r))) l with
    | Some r =>
        (Ok (Some (reading fmt (heap s r))),
         with_LOGGER
           (fun l => l ++ [sensor_temp_debug area (reading fmt (heap s r))]) s)
    | None => (Ok None, s)
    end.
Proof.
  induction l as [|x l IH]; simpl; auto.
  unfold bind at 1. unfold bind at 1. unfold gets at 1. cbv iota beta.
  destruct (String.eqb (upper area) (name (heap s x))); [reflexivity|].
  unfold ret at 1. cbv iota beta. apply IH.
Qed.

Lemma getTemp_name_eq (s : t) (area fmt : string) :
  dict_get (upper area) (groups s) = None ->
  getTemp area fmt s =
    match find (fun r => String.eqb (upper area) (name (heap s r)))
               (tempSensors s) with
    | Some r =>
        (Ok (Some (reading fmt (heap s r))),
         with_LOGGER
           (fun l => l ++ [sensor_temp_debug area (reading fmt (heap s r))]) s)
    | None =>
        (Ok None, with_LOGGER (fun l => l ++ [no_area_warning area]) s)
    end.
Proof.
  intros Hg. unfold getTemp. unfold bind at 1. unfold gets at 1.
  cbv iota beta. rewrite Hg.
  unfold bind at 1. unfold gets at 1. cbv iota beta.
  unfold bind at 1. rewrite name_loop.
  destruct (find _ (tempSensors s)); reflexivity.
Qed.

(** X8: for an area of ASCII characters that names no group, [getTemp]
    returns the reading of the first registered sensor whose stored name
    equals the upper-cased area, and logs it; when there is none it
    returns None and logs the "No area" warning.  Nothing but the log
    changes. *)
Theorem getTemp_by_name (s : t) (area fmt : string) :
  is_ascii area = true ->
  dict_get (upper area) (groups s) = None ->
  getTemp area fmt s =
    match find (fun r => String.eqb (upper area) (name (heap s r)))
               (tempSensors s) with
    | Some r =>
        (Ok (Some (reading fmt (heap s r))),
         with_LOGGER
           (fun l => l ++ [sensor_temp_debug area (reading fmt (heap s r))]) s)
    | None =>
        (Ok None, with_LOGGER (fun l => l ++ [no_area_warning area]) s)
    end.
Proof. intros _. apply getTemp_name_eq. Qed.

End Readings.

(** Readings 10, 20, 30 give 20.0; readings 10, 20, 40 give 70.0 / 3.0,
    the float nearest to 70/3, which Python prints as
    23.333333333333332. *)
Lemma getTemp_group_mean_witness :
  is_ascii "house" = true
  /\ dict_get (upper "house") (groups house) = Some [0%nat; 1%nat; 2%nat]
  /\ fst (getTemp "house" "C" house) = Ok (Some (float_of_Z 20))
  /\ fst (getTemp "cabin" "C" cabin)
     = Ok (Some (PrimFloat.div (float_of_Z 70) (float_of_Z 3))).
Proof.
  split; [reflexivity|]. split; [reflexivity|]. split.
  - rewrite (getTemp_group_mean house "house" "C" [0%nat; 1%nat; 2%nat]
               eq_refl eq_refl).
    vm_compute. reflexivity.
  - rewrite (getTemp_group_mean cabin "cabin" "C" [0%nat; 1%nat; 2%nat]
               eq_refl eq_refl).
    vm_compute. reflexivity.
Defined.

Lemma getTemp_by_name_witness :
  is_ascii "hall" = true
  /\ dict_get (upper "hall") (groups house) = None
  /\ fst (getTemp "hall" "C" house) = Ok (Some (float_of_Z 20)).
Proof.
  split; [reflexivity|]. split; [reflexivity|].
  rewrite (getTemp_by_name house "hall" "C" eq_refl eq_refl). reflexivity.
Defined.

(** *** The registry and the board *)

Section Hardware.
Context {SC : SensorClass}.

Lemma reachable_members_ok (s : t) : reachable s -> members_ok s.
Proof.
  induction 1 as [| s o Hs IH].
  - split; constructor.
  - now apply run_members_ok.
Qed.


Lemma updateSensors_state (s : t) :
  (forall r, heap (snd (updateSensors s)) r =
     if sensor_in r (tempSensors s)
     then set_tempC (analog_in (board s) (controlPin (heap s r))) (heap s r)
     else heap s r)
  /\ trace (board (snd (updateSensors s))) =
       trace (board s)
       ++ map (fun r => AnalogRead (controlPin (heap s r))) (tempSensors s)
  /\ tempSensors (snd (updateSensors s)) = tempSensors s
  /\ groups (snd (updateSensors s)) = groups s.
Proof.
  destruct (updateSensors_loop (tempSensors s) s) as (_ & H2 & H3 & _).
  unfold updateSensors. unfold bind at 1. unfold gets at 1. cbv iota beta.
  split; [exact H2|]. split; [exact H3|].
  split; [apply (keeps_for_each tempSensors) | apply (keeps_for_each groups)];
    intros; op_keeps.
Qed.






Lemma fold_left_ext_in {A B} (f g : A -> B -> A) (l : list B) (acc : A) :
  (forall a x, In x l -> f a x = g a x) ->
  fold_left f l acc = fold_left g l acc.
Proof.
  revert acc. induction l as [|x l IH]; intros acc H; simpl; auto.
  rewrite H by now left. apply IH. intros a y Hy. apply H. now right.
Qed.

(** X23: a reading taken after a poll comes from what is on the pins.
    On any thermostat, after [updateSensors], [getTemp] on an area of
    ASCII characters that names a group with members returns the float
    sum, in the order of the group, of the members' readings in the
    requested unit, each member holding the value its control pin had
    during the poll, divided as a float by the number of members. *)
Theorem getTemp_after_updateSensors (s : t) (area fmt : string)
        (members : list ref) :
  reachable s ->
  is_ascii area = true ->
  dict_get (upper area) (groups s) = Some members ->
  members <> [] ->
  fst (getTemp area fmt (snd (updateSensors s))) =
    Ok (Some
          (PrimFloat.div
             (fold_left
                (fun temp r =>
                   PrimFloat.add temp
                     (reading fmt
                        (set_tempC (analog_in (board s)
                                              (controlPin (heap s r)))
                                   (heap s r))))
                members PrimFloat.zero)
             (float_of_len (List.length members)))).
Proof.
  intros Hr _ Hg Hne.
  destruct (updateSensors_state s) as (Hh & _ & _ & Hgs).
  assert (Hg' : dict_get (upper area) (groups (snd (updateSensors s)))
                = Some members) by now rewrite Hgs.
  rewrite (getTemp_group_eq _ area fmt members Hg').
  destruct members as [|m ms]; [congruence|]. cbv zeta. cbn [fst].
  do 3 f_equal. apply fold_left_ext_in. intros a x Hx. f_equal. f_equal.
  rewrite Hh.
  destruct (reachable_members_ok s Hr) as [_ Hm].
  rewrite Forall_forall in Hm.
  destruct (Hm _ (dict_get_In _ _ _ Hg)) as [_ Hincl]. simpl in Hincl.
  apply Hincl, sensor_in_In in Hx. now rewrite Hx.
Qed.

End Hardware.


Lemma getTemp_after_updateSensors_witness :
  reachable house
  /\ is_ascii "house" = true
  /\ fst (getTemp "house" "C" (snd (updateSensors house)))
     = Ok (Some (float_of_Z 101))
  /\ fst (getTemp "cabin" "C" (snd (updateSensors cabin)))
     = Ok (Some (float_of_Z 101)).
Proof.
  split; [exact house_reachable|]. split; [reflexivity|]. split.
  - rewrite (getTemp_after_updateSensors house "house" "C"
               [0%nat; 1%nat; 2%nat] house_reachable eq_refl eq_refl).
    + vm_compute. reflexivity.
    + discriminate.
  - rewrite (getTemp_after_updateSensors cabin "cabin" "C"
               [0%nat; 1%nat; 2%nat]
               (run_all_reachable _ _ (reachable_init _ _ _ _))
               eq_refl eq_refl).
    + vm_compute. reflexivity.
    + discriminate.
Defined.

End RegistrySpec.

(* ================================================================= *)
(** ** Telemetry: the [mqtt] property and [publish] *)

Module PublishSpec.
Import Py PyFacts Pymata Logging Thermostat ThermostatFrames Registry
       RegistrySpec Examples.
#[local] Open Scope py_scope.

(** [str.join] is given two arguments: it raises before anything after
    it runs. *)
Lemma join_two_raises {S A X} (f : S -> X) (a b : pyval)
      (k : string -> M S A) :
  keeps f (bind (lift (str_join "/" [a; b])) k).
Proof. intro s. reflexivity. Qed.

Lemma subscript_str_raises (v : pyval) (k : string) (e : exn) :
  subscript v (VStr k) = Raise e -> e = KeyError \/ e = TypeError.
Proof.
  destruct v as [| | |l|d]; simpl; intros H;
    try (inversion H; auto; fail).
  destruct (dict_get k d); inversion H; auto.
Qed.

Section WithSensors.
Context {SC : SensorClass}.

Lemma getTemp_raises (area fmt : string) (s : t) (e : exn) :
  fst (getTemp area fmt s) = Raise e -> e = ZeroDivisionError.
Proof.
  destruct (dict_get (upper area) (groups s)) as [m|] eqn:Eg.
  - rewrite (getTemp_group_eq s area fmt m Eg).
    destruct m; simpl; intros H; inversion H; auto.
  - rewrite (getTemp_name_eq s area fmt Eg).
    destruct (find _ (tempSensors s)); simpl; discriminate.
Qed.

Lemma publish_one_raises (area : string) (s : t) :
  exists e, fst (publish_one area s) = Raise e
            /\ (e = ZeroDivisionError \/ e = KeyError \/ e = TypeError).
Proof.
  unfold publish_one. unfold bind at 1.
  destruct (getTemp area "F" s) as [[temp|e] s1] eqn:Et.
  - unfold bind at 1. unfold gets at 1. cbv iota beta. unfold bind at 1.
    unfold lift at 1.
    destruct (subscript (mqtt s1) (VStr "PATH")) as [path|e] eqn:Ep.
    + exists TypeError. auto.
    + exists e. split; auto. right. eapply subscript_str_raises; eauto.
  - exists e. split; auto. left.
    apply (getTemp_raises area "F" s). now rewrite Et.
Qed.

Lemma for_each_first_raises {A} (x : A) (l : list A) (body : A -> M t unit)
      (s : t) (e : exn) :
  fst (body x s) = Raise e -> fst (for_each (x :: l) body s) = Raise e.
Proof.
  intros H. simpl. unfold bind. destruct (body x s) as [[u|e'] s1]; simpl in *;
    congruence.
Qed.

(** X9: [publish] never reaches [mqtt_pub.single]: whatever the state
    and the MQTT flag, the call leaves the publications as they were,
    because building the topic raises first. *)
Theorem publish_never_publishes (mqtt_enabled : bool) (s : t) :
  published (snd (publish mqtt_enabled s)) = published s.
Proof.
  revert s. change (keeps published (publish mqtt_enabled)).
  unfold publish. unfold_ops.
  repeat first [apply join_two_raises | keeps_step].
Qed.

Lemma publish_configured (s : t) :
  truthy (mqtt s) = true ->
  publish true s =
    bind (for_each (tempSensors s)
            (fun sensor s' => publish_one (name (heap s' sensor)) s'))
         (fun _ s' => for_each (map fst (groups s')) publish_one s') s.
Proof.
  intros Hm. unfold publish. unfold bind at 1. unfold gets at 1.
  cbv beta iota. rewrite Hm. reflexivity.
Qed.

(** X10: with MQTT available and settings that are not empty, [publish]
    raises as soon as one sensor is registered or one group exists: the
    exception is ZeroDivisionError (an empty group), KeyError or
    TypeError (no usable PATH), or TypeError (from [join]). *)
Theorem publish_raises_when_configured (s : t) :
  truthy (mqtt s) = true ->
  tempSensors s <> [] \/ groups s <> [] ->
  exists e, fst (publish true s) = Raise e
            /\ (e = ZeroDivisionError \/ e = KeyError \/ e = TypeError).
Proof.
  intros Hm Hreg. rewrite (publish_configured s Hm).
  destruct (tempSensors s) as [|x l] eqn:Ets.
  - destruct Hreg as [H|H]; [congruence|].
    destruct (groups s) as [|[g m] gs] eqn:Eg; [congruence|].
    destruct (publish_one_raises g s) as (e & He & Hc).
    exists e. split; auto.
    unfold bind. cbn [for_each ret]. cbv beta iota. rewrite Eg. cbn [map fst].
    now apply for_each_first_raises.
  - destruct (publish_one_raises (name (heap s x)) s) as (e & He & Hc).
    exists e. split; auto. unfold bind at 1.
    assert (H1 : fst (for_each (x :: l)
                        (fun sensor s' =>
                           publish_one (name (heap s' sensor)) s') s)
                 = Raise e).
    { apply for_each_first_raises. exact He. }
    destruct (for_each (x :: l) _ s) as [[u|e'] s1]; simpl in *; congruence.
Qed.

(** X11: without paho-mqtt ([MQTT_ENABLED] false) the [mqtt] setter
    stores None whatever it is given, and [publish] then only logs its
    warning; with it the setter stores the settings as given. *)
Theorem publish_without_mqtt (v : pyval) (s : t) :
  mqtt (snd (set_mqtt false v s)) = VNone
  /\ mqtt (snd (set_mqtt true v s)) = v
  /\ (forall e,
        publish e (snd (set_mqtt false v s)) =
          (Ok tt, with_LOGGER (fun l => l ++ [mqtt_warning])
                              (with_mqtt VNone s)))
  /\ publish false s =
       (Ok tt, with_LOGGER (fun l => l ++ [mqtt_warning]) s).
Proof.
  repeat split. intros e. destruct e; reflexivity.
Qed.

End WithSensors.

Lemma publish_raises_when_configured_witness :
  truthy (mqtt (with_mqtt mqtt_settings house)) = true
  /\ fst (publish true (with_mqtt mqtt_settings house)) = Raise TypeError.
Proof.
  split; [reflexivity|].
  destruct (publish_raises_when_configured (with_mqtt mqtt_settings house)
              eq_refl (or_introl (fun H => @nil_cons _ 0%nat [1%nat; 2%nat]
                                             (eq_sym H))))
    as (e & He & _).
  reflexivity.
Defined.

End PublishSpec.

(* ================================================================= *)
(** ** The time window: edge cases *)

Module TimeWindowSpec.
Import Py PyFacts Thermostat Examples.
#[local] Open Scope py_scope.

Lemma int_number (s : string) :
  is_number s = true -> py_int (VStr s) = Ok (decimal s).
Proof. apply int_of_str_number. Qed.

(** The test on two full time strings, neither of them zero. *)
Lemma getBetweenTime_full now (s e : string) :
  is_number s = true -> is_number e = true ->
  decimal s <> 0 -> decimal e <> 0 ->
  (3 <= String.length s)%nat -> (3 <= String.length e)%nat ->
  getBetweenTime now (VList [VStr s; VStr e]) =
    Ok ((decimal (str_take 2 s) <=? hour now)
        && (decimal (str_drop 2 s) <=? minute now)
        && (hour now <=? decimal (str_take 2 e))
        && (minute now <? decimal (str_drop 2 e))).
Proof.
  intros Hs He Zs Ze Ls Le. unfold getBetweenTime.
  change (subscript (VList [VStr s; VStr e]) (VInt 0)) with (Ok (VStr s)).
  change (subscript (VList [VStr s; VStr e]) (VInt 1)) with (Ok (VStr e)).
  cbn [rbind]. rewrite (int_number s Hs). cbn [rbind].
  apply Z.eqb_neq in Zs, Ze. rewrite Zs.
  cbn [rbind]. rewrite (int_number e He). cbn [rbind]. rewrite Ze.
  unfold is_number in Hs, He.
  apply andb_true_iff in Hs as [Ds _]. apply andb_true_iff in He as [De _].
  destruct (halves_are_numbers s Ds Ls) as [Hsh Hsm].
  destruct (halves_are_numbers e De Le) as [Heh Hem].
  cbn [slice_to slice_from rbind].
  rewrite (int_number _ Hsh), (int_number _ Hsm),
    (int_number _ Heh), (int_number _ Hem).
  cbn [rbind].
  destruct (decimal (str_take 2 s) <=? hour now),
    (decimal (str_drop 2 s) <=? minute now),
    (hour now <=? decimal (str_take 2 e)),
    (minute now <? decimal (str_drop 2 e)); reflexivity.
Qed.

(** X12: the minute fields are compared on their own, whatever the
    hour.  For a window given by two full, non-zero time strings,
    [getBetweenTime] is False whenever the current minute is below the
    start's minute part or not below the end's minute part, and
    whenever the end hour is below the start hour; so a window that ends
    on the hour (minutes 00) or that spans midnight never applies. *)
Theorem getBetweenTime_blind_spots now (s e : string) :
  is_number s = true -> is_number e = true ->
  decimal s <> 0 -> decimal e <> 0 ->
  (3 <= String.length s)%nat -> (3 <= String.length e)%nat ->
  minute now < decimal (str_drop 2 s)
  \/ decimal (str_drop 2 e) <= minute now
  \/ decimal (str_take 2 e) < decimal (str_take 2 s) ->
  getBetweenTime now (VList [VStr s; VStr e]) = Ok false.
Proof.
  intros Hs He Zs Ze Ls Le H.
  rewrite getBetweenTime_full by assumption. f_equal.
  destruct H as [H | [H | H]].
  - apply Z.leb_gt in H. rewrite H. now rewrite andb_false_r.
  - apply Z.ltb_ge in H. rewrite H. now rewrite andb_false_r.
  - destruct (decimal (str_take 2 s) <=? hour now) eqn:E1; [|reflexivity].
    destruct (hour now <=? decimal (str_take 2 e)) eqn:E2;
      [|now rewrite andb_false_r].
    apply Z.leb_le in E1, E2. lia.
Qed.

Lemma getBetweenTime_blind_spots_witness :
  getBetweenTime (at_time 1 8 45) (VList [VStr "0600"; VStr "0930"]) = Ok false
  /\ getBetweenTime (at_time 1 7 30) (VList [VStr "0600"; VStr "0900"]) = Ok false
  /\ getBetweenTime (at_time 1 23 15) (VList [VStr "2200"; VStr "0630"]) = Ok false.
Proof.
  split; [|split].
  - apply (getBetweenTime_blind_spots (at_time 1 8 45) "0600" "0930");
      try reflexivity; try discriminate; try (simpl; lia);
      try (right; left; vm_compute; discriminate);
      try (right; right; reflexivity).
  - apply (getBetweenTime_blind_spots (at_time 1 7 30) "0600" "0900");
      try reflexivity; try discriminate; try (simpl; lia);
      try (right; left; vm_compute; discriminate);
      try (right; right; reflexivity).
  - apply (getBetweenTime_blind_spots (at_time 1 23 15) "2200" "0630");
      try reflexivity; try discriminate; try (simpl; lia);
      try (right; left; vm_compute; discriminate);
      try (right; right; reflexivity).
Defined.

(** X13: the start is examined first.  When it is the number 0 the
    answer is True whatever follows it in the list, even nothing; an
    empty list raises IndexError, and so does a list of one non-zero
    time, whose end is missing. *)
Theorem getBetweenTime_start_first now :
  getBetweenTime now (VList []) = Raise IndexError
  /\ (forall s rest,
        is_number s = true -> decimal s = 0 ->
        getBetweenTime now (VList (VStr s :: rest)) = Ok true)
  /\ (forall s,
        is_number s = true -> decimal s <> 0 ->
        getBetweenTime now (VList [VStr s]) = Raise IndexError).
Proof.
  split; [reflexivity|]. split.
  - intros s rest Hs Zs. unfold getBetweenTime.
    change (subscript (VList (VStr s :: rest)) (VInt 0)) with (Ok (VStr s)).
    cbn [rbind]. rewrite (int_number s Hs). cbn [rbind].
    rewrite Zs. reflexivity.
  - intros s Hs Zs. unfold getBetweenTime.
    change (subscript (VList [VStr s]) (VInt 0)) with (Ok (VStr s)).
    cbn [rbind]. rewrite (int_number s Hs). cbn [rbind].
    apply Z.eqb_neq in Zs. rewrite Zs. reflexivity.
Qed.

Lemma getBetweenTime_start_first_witness :
  getBetweenTime (at_time 1 8 45) (VList [VStr "0"; VStr "soon"]) = Ok true
  /\ getBetweenTime (at_time 1 8 45) (VList [VStr "0600"]) = Raise IndexError.
Proof.
  destruct (getBetweenTime_start_first (at_time 1 8 45)) as (_ & H2 & H3).
  split.
  - apply H2; reflexivity.
  - apply H3; [reflexivity | discriminate].
Defined.

End TimeWindowSpec.

(* ================================================================= *)
(** ** The schedule-driven target: what the AUTO branch can produce *)

Module ScheduleSpec.
Import Py PyFacts Pymata Logging Thermostat ThermostatFrames Examples.
#[local] Open Scope py_scope.


Lemma season_key_some now : exists key, season_key now = Some key.
Proof.
  unfold season_key.
  destruct ((11 <=? month now) || (month now <=? 3)); [eauto|].
  destruct ((7 <=? month now) || (month now <=? 9)) eqn:S; [eauto|].
  apply orb_false_iff in S as [S1 S2]. apply Z.leb_gt in S1, S2. lia.
Qed.


Lemma tempDict_raise key (s : t) e s1 :
  tempDict key s = (Raise e, s1) -> s1 = s.
Proof.
  unfold tempDict, bind, gets, lift.
  destruct (subscript (tempSettings s) (VStr key)); intros H;
    inversion H; auto.
Qed.





Lemma try_except_eq {S A} (body handler : M S A) catches s :
  try_except body catches handler s =
    match body s with
    | (Ok a, s') => (Ok a, s')
    | (Raise e, s') => if catches e then handler s' else (Raise e, s')
    end.
Proof. reflexivity. Qed.



Lemma tempDict_missing key d (s : t) :
  tempSettings s = VDict d -> dict_get key d = None ->
  tempDict key s = (Raise KeyError, s).
Proof.
  intros Hs Hd. unfold tempDict, bind, gets, lift. rewrite Hs. simpl.
  now rewrite Hd.
Qed.

(** X15: a schedule table that is a dict but has no entry for the
    season, or whose season table has no DEFAULT_TEMP, is handled in
    place: the AUTO recomputation returns, logs "No temp modifications",
    sets the target to the empty value it was given and leaves the
    table untouched.  A thermostat built without any table (None)
    raises TypeError instead and changes nothing. *)
Theorem auto_without_schedule now (temp : pyval) (s : t) :
  truthy temp = false ->
  (forall key d,
      season_key now = Some key -> tempSettings s = VDict d ->
      dict_get key d = None
      \/ (exists sd, dict_get key d = Some (VDict sd)
                     /\ dict_get "DEFAULT_TEMP" sd = None) ->
      set_desiredTemp now temp s =
        (Ok tt,
         with_desiredTemp temp
           (with_LOGGER (fun l => l ++ [no_modifications_info]) s)))
  /\ (tempSettings s = VNone ->
      set_desiredTemp now temp s = (Raise TypeError, s)).
Proof.
  intros Ht. split.
  - intros key d Hk Hs [Hd | (sd & Hd & Hv)].
    + unfold set_desiredTemp, set_desiredTemp_calling. rewrite Ht, Hk.
      rewrite try_except_eq.
      rewrite (ThermostatSpec.bind_raise _ _ _ _ _
                 (tempDict_missing key d s Hs Hd)).
      reflexivity.
    + now apply (ThermostatSpec.auto_without_default
                   "getbetweenTime" now temp key d sd).
  - intros Hs. destruct (season_key_some now) as [key Hk].
    unfold set_desiredTemp, set_desiredTemp_calling. rewrite Ht, Hk.
    rewrite try_except_eq.
    assert (E : tempDict key s = (Raise TypeError, s)).
    { unfold tempDict, bind, gets, lift. now rewrite Hs. }
    rewrite (ThermostatSpec.bind_raise _ _ _ _ _ E). reflexivity.
Qed.

Lemma auto_without_schedule_witness :
  set_desiredTemp (at_time 1 7 0) VNone (fresh summer_table) =
    (Ok tt,
     with_desiredTemp VNone
       (with_LOGGER (fun l => l ++ [no_modifications_info])
                    (fresh summer_table)))
  /\ set_desiredTemp (at_time 1 7 0) VNone (fresh VNone)
     = (Raise TypeError, fresh VNone).
Proof.
  destruct (auto_without_schedule (at_time 1 7 0) VNone (fresh summer_table)
              eq_refl) as [H1 _].
  destruct (auto_without_schedule (at_time 1 7 0) VNone (fresh VNone)
              eq_refl) as [_ H2].
  split.
  - apply (H1 "WINTER" [("SUMMER", VDict [("DEFAULT_TEMP", VInt 75)])]
              eq_refl eq_refl).
    left. reflexivity.
  - apply H2. reflexivity.
Defined.




End ScheduleSpec.

(* ================================================================= *)
(** ** Actuators and the HVAC object: construction and commands *)

Module DeviceSpec.
Import Py Pymata Logging Actuator.
#[local] Open Scope py_scope.

(** The pulse [turnOn] and [turnOff] send to a pin. *)
Lemma pulse_trace (p : Z) (b : Board) :
  trace (sleep 100 (digital_write p 0 (sleep 100 (digital_write p 1 b))))
  = trace b ++ [DigitalWrite p 1; Sleep 100; DigitalWrite p 0; Sleep 100].
Proof. simpl. now rewrite <- !app_assoc. Qed.

Lemma init_board (pins : list Z) (b : Board) :
  trace (fold_left (fun b pin => set_pin_mode pin OUTPUT b) pins b)
  = trace b ++ map (fun pin => SetPinMode pin OUTPUT) pins
  /\ analog_in (fold_left (fun b pin => set_pin_mode pin OUTPUT b) pins b)
     = analog_in b.
Proof.
  revert b. induction pins as [|p pins IH]; intros b; simpl.
  - now rewrite app_nil_r.
  - destruct (IH (set_pin_mode p OUTPUT b)) as [-> ->]. simpl.
    now rewrite <- app_assoc.
Qed.

(** X16: constructing a heater, an air conditioner or a vent sets every
    control pin it is given to OUTPUT, in order, with no other call on
    the board, keeps the pins as given and starts in state "OFF". *)
Theorem actuator_init (k : device) (b : Board) (pins : list Z) :
  trace (board (__init__ k b pins))
  = trace b ++ map (fun pin => SetPinMode pin OUTPUT) pins
  /\ controlPins (__init__ k b pins) = pins
  /\ state (__init__ k b pins) = VStr "OFF".
Proof.
  split; [|split]; try reflexivity. apply (init_board pins b).
Qed.



(** X18: the ON test ignores letter case, and the state is recorded as
    the command was written, before the actuation: any spelling of "on"
    leaves exactly that spelling as the state and sends one pulse to
    [controlPins[0]]; on an actuator without control pins it raises
    IndexError with the state already changed and nothing sent. *)
Theorem set_state_on_any_case (a : t) (s : string) :
  upper s = "ON" ->
  (forall p rest,
      controlPins a = p :: rest ->
      let r := set_state (VStr s) a in
      fst r = Ok tt
      /\ state (snd r) = VStr s
      /\ trace (board (snd r)) =
           trace (board a)
           ++ [DigitalWrite p 1; Sleep 100; DigitalWrite p 0; Sleep 100])
  /\ (controlPins a = [] ->
      set_state (VStr s) a = (Raise IndexError, with_state (VStr s) a)).
Proof.
  intros Hs. split.
  - intros p rest Hp. cbv zeta.
    assert (E : set_state (VStr s) a =
                (Ok tt,
                 with_board (fun b => sleep 100 (digital_write p 0
                                        (sleep 100 (digital_write p 1 b))))
                            (with_state (VStr s) a))).
    { unfold set_state, turnOn, controlPin, bind, gets, lift, modify, ret.
      simpl. rewrite Hs. simpl. rewrite Hp. reflexivity. }
    rewrite E. split; [reflexivity|]. split; [reflexivity|].
    apply pulse_trace.
  - intros Hp.
    unfold set_state, turnOn, controlPin, bind, gets, lift, modify, ret.
    simpl. rewrite Hs. simpl. rewrite Hp. reflexivity.
Qed.

Lemma set_state_on_any_case_witness :
  state (snd (set_state (VStr "on") Examples.heater)) = VStr "on"
  /\ trace (board (snd (set_state (VStr "on") Examples.heater))) =
       [SetPinMode 2 OUTPUT; SetPinMode 3 OUTPUT;
        DigitalWrite 2 1; Sleep 100; DigitalWrite 2 0; Sleep 100].
Proof.
  destruct (set_state_on_any_case Examples.heater "on" eq_refl) as [H _].
  destruct (H 2 [3] eq_refl) as (_ & H2 & H3).
  split; [exact H2 | exact H3].
Defined.

(** X19: called directly, [turnOff] does send the OFF pulse: with two
    control pins or more it writes high, waits, writes low and waits on
    [controlPins[1]], and the recorded state is not touched; with fewer
    than two pins it raises IndexError before any call on the board. *)
Theorem turnOff_direct (a : t) :
  (forall p0 p1 rest,
      controlPins a = p0 :: p1 :: rest ->
      fst (turnOff a) = Ok tt
      /\ state (snd (turnOff a)) = state a
      /\ trace (board (snd (turnOff a))) =
           trace (board a)
           ++ [DigitalWrite p1 1; Sleep 100; DigitalWrite p1 0; Sleep 100])
  /\ ((List.length (controlPins a) < 2)%nat ->
      turnOff a = (Raise IndexError, a)).
Proof.
  split.
  - intros p0 p1 rest Hp.
    assert (E : turnOff a =
                (Ok tt,
                 with_board (fun b => sleep 100 (digital_write p1 0
                                        (sleep 100 (digital_write p1 1 b))))
                            a)).
    { unfold turnOff, controlPin, bind, gets, lift, modify. simpl.
      rewrite Hp.
      replace (seq_index (p0 :: p1 :: rest) 1) with (@Ok Z p1).
      - reflexivity.
      - unfold seq_index. cbn [List.length].
        replace (1 <? 0) with false by reflexivity.
        replace ((1 <? 0) || (Z.of_nat (S (S (List.length rest))) <=? 1))
          with false.
        + reflexivity.
        + symmetry. apply orb_false_iff. split; [reflexivity|].
          apply Z.leb_gt. lia. }
    rewrite E. split; [reflexivity|]. split; [reflexivity|].
    apply pulse_trace.
  - intros Hl. unfold turnOff, controlPin, bind, gets, lift. simpl.
    destruct (controlPins a) as [|p0 [|p1 rest]]; simpl in Hl;
      try lia; reflexivity.
Qed.

Lemma turnOff_direct_witness :
  trace (board (snd (turnOff Examples.heater))) =
    [SetPinMode 2 OUTPUT; SetPinMode 3 OUTPUT;
     DigitalWrite 3 1; Sleep 100; DigitalWrite 3 0; Sleep 100]
  /\ turnOff (__init__ Heater Examples.idle_board [2])
     = (Raise IndexError, __init__ Heater Examples.idle_board [2]).
Proof.
  destruct (turnOff_direct Examples.heater) as [H _].
  destruct (H 2 3 [] eq_refl) as (_ & _ & H3).
  destruct (turnOff_direct (__init__ Heater Examples.idle_board [2]))
    as [_ H'].
  split; [exact H3|]. apply H'. simpl. lia.
Defined.

(** *** The HVAC object *)


(** X21: through the HVAC, switching an attached heater on and then
    off leaves "OFF" as its recorded state while the only pulse that
    reached the board is the ON pulse on [controlPins[0]]; the air
    conditioner and the vent are not touched. *)
Theorem hvac_heater_on_then_off (h : HVAC.t) (a : t) (p : Z) (rest : list Z) :
  HVAC.heater h = Some a -> controlPins a = p :: rest ->
  let h2 := snd (HVAC.changeHeatState (VStr "OFF")
                   (snd (HVAC.changeHeatState (VStr "ON") h))) in
  exists a2,
    HVAC.heater h2 = Some a2
    /\ state a2 = VStr "OFF"
    /\ trace (board a2) =
         trace (board a)
         ++ [DigitalWrite p 1; Sleep 100; DigitalWrite p 0; Sleep 100]
    /\ HVAC.ac h2 = HVAC.ac h
    /\ HVAC.vent h2 = HVAC.vent h.
Proof.
  intros Hh Hp. cbv zeta.
  unfold HVAC.changeHeatState, HVAC.assign_state. rewrite Hh. simpl.
  assert (E : set_state (VStr "ON") a =
              (Ok tt,
               with_board (fun b => sleep 100 (digital_write p 0
                                      (sleep 100 (digital_write p 1 b))))
                          (with_state (VStr "ON") a))).
  { unfold set_state, turnOn, controlPin, bind, gets, lift, modify, ret.
    simpl. rewrite Hp. reflexivity. }
  rewrite E. simpl.
  eexists. split; [reflexivity|]. split; [reflexivity|].
  split; [|split; reflexivity].
  simpl. now rewrite <- !app_assoc.
Qed.

Lemma hvac_heater_on_then_off_witness :
  let h := HVAC.with_heater (Some Examples.heater)
             (HVAC.__init__ (VStr "home") VNone (Ok Examples.idle_board)) in
  exists a2,
    HVAC.heater (snd (HVAC.changeHeatState (VStr "OFF")
                        (snd (HVAC.changeHeatState (VStr "ON") h)))) = Some a2
    /\ state a2 = VStr "OFF"
    /\ trace (board a2) =
         [SetPinMode 2 OUTPUT; SetPinMode 3 OUTPUT;
          DigitalWrite 2 1; Sleep 100; DigitalWrite 2 0; Sleep 100].
Proof.
  cbv zeta.
  destruct (hvac_heater_on_then_off
              (HVAC.with_heater (Some Examples.heater)
                 (HVAC.__init__ (VStr "home") VNone (Ok Examples.idle_board)))
              Examples.heater 2 [3] eq_refl eq_refl)
    as (a2 & H1 & H2 & H3 & _).
  exists a2. split; [exact H1|]. split; [exact H2 | exact H3].
Defined.

End DeviceSpec.
